(** * Fake-News-Detector: the analysis pipeline of [app.py]

    A shallow embedding of [analyze_news] (src/app.py, lines 30-108) and the
    properties of its validation, label selection, report text and error
    handling.

    Conventions of the embedding.
    - The text a user submits is a Python [str], embedded as the list of its
      code points ([unicode]): [len] counts code points, [text[:512]] keeps
      512 of them, and [strip] removes the white space of Unicode.
    - The texts the function returns, the labels of the classifier and the
      messages of exceptions are Rocq [string]s.  The emoji and bullets of
      the fixed report texts are written as they are in the source (their
      UTF-8 encoding) and are only ever concatenated and compared; [upper]
      and the [in] test on a label act on the letters of the ASCII range,
      where the labels of both models lie.
    - An exception ([exn]) is an instance of [Exception], the kind that
      [except Exception] catches; interrupts of the interpreter
      ([KeyboardInterrupt], [SystemExit]) are outside the embedding.
    - A classifier score is a Python [float], that is an IEEE 754 binary64:
      Rocq's primitive [float], with its comparison and multiplication.
    - The two services the function calls (the retriever and the classifier
      pipeline, module globals of app.py) are fields of a record [Services];
      a call returns a value or raises.  Every call is logged in a trace, so
      that "no call is issued" and "called once" can be stated. *)

From Stdlib Require Import ZArith NArith List String Ascii Floats Bool Lia.
From Stdlib Require Import Permutation.
From Stdlib Require Import DecimalString DecimalNat DecimalN.
Import ListNotations.

Set Warnings "-inexact-float".

Local Open Scope string_scope.

(** ** Python strings *)

Module PyStr.

(** A Python [str] as the sequence of its code points. *)
Definition unicode : Type := list N.

(** The [str] written as a literal of the ASCII range. *)
Definition from_ascii (s : string) : unicode :=
  List.map N_of_ascii (list_ascii_of_string s).

(** [str.isspace] on one character, which is what [strip] tests: the
    characters [\t \n \v \f \r], the separators [\x1c .. \x1f], the space,
    U+0085, U+00A0, U+1680, U+2000 .. U+200A, U+2028, U+2029, U+202F, U+205F
    and U+3000. *)
Definition isspace (c : N) : bool :=
  (((0x9 <=? c) && (c <=? 0xD)) || ((0x1C <=? c) && (c <=? 0x20))
   || (c =? 0x85) || (c =? 0xA0) || (c =? 0x1680)
   || ((0x2000 <=? c) && (c <=? 0x200A))
   || (c =? 0x2028) || (c =? 0x2029) || (c =? 0x202F) || (c =? 0x205F)
   || (c =? 0x3000))%N.

Fixpoint lstrip (s : unicode) : unicode :=
  match s with
  | [] => []
  | c :: s' => if isspace c then lstrip s' else s
  end.

Fixpoint rstrip (s : unicode) : unicode :=
  match s with
  | [] => []
  | c :: s' =>
      match rstrip s' with
      | [] => if isspace c then [] else [c]
      | r => c :: r
      end
  end.

(** [s.strip()] *)
Definition strip (s : unicode) : unicode := rstrip (lstrip s).

(** Truth value of a string: [not s] holds of the empty string only. *)
Definition truthy (s : unicode) : bool :=
  match s with
  | [] => false
  | _ :: _ => true
  end.

(** [len(s)] *)
Definition len (s : unicode) : nat := List.length s.

(** [s[:n]] *)
Definition slice_to (n : nat) (s : unicode) : unicode := firstn n s.

(** [sub in s], for a label [s] *)
Fixpoint str_in (sub s : string) : bool :=
  prefix sub s ||
  match s with
  | EmptyString => false
  | String _ s' => str_in sub s'
  end.

Definition upper_char (c : ascii) : ascii :=
  let n := nat_of_ascii c in
  if ((97 <=? n) && (n <=? 122))%nat then ascii_of_nat (n - 32) else c.

(** [s.upper()], for a label [s] of the ASCII range.  Python also maps
    letters outside that range; of the two tests of lines 50 and 53 only the
    one for FAKE can tell the difference, and only on a label where the
    ligature U+FB00 comes before the letters [ake]. *)
Fixpoint upper (s : string) : string :=
  match s with
  | EmptyString => EmptyString
  | String c s' => String (upper_char c) (upper s')
  end.

(** [str(n)] for a length. *)
Definition str_of_nat (n : nat) : string :=
  NilZero.string_of_uint (Nat.to_uint n).

Definition str_of_N (n : N) : string :=
  NilZero.string_of_uint (N.to_uint n).

End PyStr.
Import PyStr.

(** ** Formatting a float with [.1%] *)

Module PyFloat.

Local Open Scope Z_scope.

(** [a / b] rounded to the nearest integer, ties to the even one ([0 < b]). *)
Definition div_half_even (a b : Z) : Z :=
  let q := a / b in
  let r := a mod b in
  if 2 * r <? b then q
  else if b <? 2 * r then q + 1
  else if Z.even q then q else q + 1.

(** The number of tenths nearest to [m * 2^e], exactly rounded, as the
    correctly rounded ['f'] conversion with one digit does. *)
Definition tenths (m : positive) (e : Z) : Z :=
  if 0 <=? e then 10 * Z.pos m * 2 ^ e
  else div_half_even (10 * Z.pos m) (2 ^ (- e)).

Definition sign_str (s : bool) : string := if s then "-" else "".

(** [format(y, '.1f')] *)
Definition format_f1 (y : float) : string :=
  match Prim2SF y with
  | S754_nan => "nan"
  | S754_infinity s => sign_str s ++ "inf"
  | S754_zero s => sign_str s ++ "0.0"
  | S754_finite s m e =>
      let t := tenths m e in
      sign_str s ++ str_of_N (Z.to_N (t / 10)) ++ "." ++ str_of_N (Z.to_N (t mod 10))
  end.

(** [format(x, '.1%')]: the value is multiplied by 100 (in binary64), printed
    with one digit after the point, and followed by a percent sign. *)
Definition format_pct1 (x : float) : string :=
  format_f1 (x * 100)%float ++ "%".

End PyFloat.
Import PyFloat.

(** ** Exceptions, outcomes and the trace of service calls *)

(** An exception caught by [except Exception], known by the text [str(e)]
    that the error report shows. *)
Inductive exn : Type :=
| IndexError                (* [l[0]] on an empty list *)
| ValueError_max            (* [max] of an empty sequence *)
| ServiceError (msg : string). (* raised by the retriever or the classifier *)

(** [str(e)].  The wording of the two built-in errors is CPython's (3.11);
    no statement below depends on it. *)
Definition str_exn (e : exn) : string :=
  match e with
  | IndexError => "list index out of range"
  | ValueError_max => "max() arg is an empty sequence"
  | ServiceError msg => msg
  end.

Inductive outcome (A : Type) : Type :=
| Return (a : A)
| Raise (e : exn).
Arguments Return {A} a.
Arguments Raise {A} e.

(** One entry of a classification result: [{'label': ..., 'score': ...}]. *)
Record Entry : Type := mkEntry { label : string; score : float }.

(** A retrieved document; only the number of documents is used. *)
Record Document : Type := mkDocument { page_content : string }.

(** The globals [retriever] and [llm] of app.py.  [llm] is a pipeline built
    with [return_all_scores=True]: called on one text it returns a list with
    one list of entries. *)
Record Services : Type := mkServices {
  get_relevant_documents : unicode -> outcome (list Document);
  llm : unicode -> outcome (list (list Entry))
}.

Inductive Call : Type :=
| Retrieve (query : unicode)
| Classify (input : unicode).

(** A computation logs the calls it issues and returns or raises; the log
    survives an exception. *)
Definition M (A : Type) : Type := list Call -> outcome A * list Call.

Definition ret {A} (a : A) : M A := fun tr => (Return a, tr).

Definition raise {A} (e : exn) : M A := fun tr => (Raise e, tr).

Definition bind {A B} (m : M A) (k : A -> M B) : M B :=
  fun tr =>
    match m tr with
    | (Return a, tr') => k a tr'
    | (Raise e, tr') => (Raise e, tr')
    end.

(** [try: m  except Exception as e: h e], every [exn] being an [Exception] *)
Definition try_except {A} (m : M A) (h : exn -> M A) : M A :=
  fun tr =>
    match m tr with
    | (Return a, tr') => (Return a, tr')
    | (Raise e, tr') => h e tr'
    end.

Definition lift {A} (o : outcome A) : M A := fun tr => (o, tr).

Definition call {A} (c : Call) (o : outcome A) : M A :=
  fun tr => (o, (tr ++ [c])%list).

Definition run {A} (m : M A) : outcome A * list Call := m [].

Declare Scope py_scope.
Notation "x <- c1 ;; c2" := (bind c1 (fun x => c2))
  (at level 61, c1 at next level, right associativity) : py_scope.
Local Open Scope py_scope.

(** ** The report texts (lines 50-103 of app.py) *)

(** Lines 50-59: the headline label and its colour, from the selected entry. *)
Definition label_and_color (best_match : Entry) : string * string :=
  if (label best_match =? "LABEL_1") || str_in "REAL" (upper (label best_match)) then
    ("✅ LIKELY CREDIBLE", "#22c55e")
  else if (label best_match =? "LABEL_0") || str_in "FAKE" (upper (label best_match)) then
    ("🚨 POTENTIALLY MISLEADING", "#ef4444")
  else
    (if label best_match =? "POSITIVE" then "✅ CREDIBLE" else "🚨 SUSPICIOUS",
     if label best_match =? "POSITIVE" then "#22c55e" else "#ef4444").

(** Lines 62-74: the f-string that opens the report. *)
Definition analysis_header (label color : string) (confidence : float) (n_docs : nat) : string :=
  "
## 📊 ANALYSIS RESULTS

<div style='background-color: " ++ color ++ "20; padding: 15px; border-radius: 10px; border-left: 4px solid " ++ color ++ ";'>
<h3 style='color: " ++ color ++ "; margin: 0;'>" ++ label ++ "</h3>
</div>

**Confidence Level:** " ++ format_pct1 confidence ++ "  
**Similar Patterns Found:** " ++ str_of_nat n_docs ++ " matches in our database

### 🔍 ANALYSIS
This content appears **" ++ (if str_in "CREDIBLE" label then "credible" else "suspicious") ++ "** based on linguistic patterns and comparison with our database of verified news examples.
".

(** Lines 78-86. *)
Definition RECOMMENDATIONS : string :=
  "
### ⚠️ RECOMMENDATIONS

• **Verify with reputable sources** like AP News, Reuters, or BBC
• **Check the publication date** - old news can be repurposed
• **Look for official statements** from relevant authorities
• **Reverse image search** any accompanying photos
• **Use fact-checking sites** like Snopes or FactCheck.org
".

(** Lines 88-96. *)
Definition BEST_PRACTICES : string :=
  "
### 💡 BEST PRACTICES

• **Cross-reference** with multiple reliable sources
• **Check author credentials** and publication history
• **Be aware of potential biases** in the reporting
• **Look for supporting evidence** and citations
• **Consider the tone** - credible news is typically neutral
".

(** Lines 99-103. *)
Definition LITERACY_TIP : string :=
  "
---

**🎓 Digital Literacy Tip:** Always approach online information with healthy skepticism and verify before sharing.
".

(** Line 77: the test that chooses the advice block. *)
Definition is_warning (label : string) : bool :=
  str_in "MISLEADING" label || str_in "SUSPICIOUS" label.

Definition advice (label : string) : string :=
  if is_warning label then RECOMMENDATIONS else BEST_PRACTICES.

(** Lines 49-105: the report for a selected entry and a list of documents. *)
Definition build_report (best_match : Entry) (n_docs : nat) : string :=
  let confidence := score best_match in
  let '(label, color) := label_and_color best_match in
  let analysis := analysis_header label color confidence n_docs in
  let analysis := analysis ++ advice label in
  let analysis := analysis ++ LITERACY_TIP in
  analysis.

Definition MSG_EMPTY : string := "❌ Please enter some news content to analyze.".

Definition MSG_TOO_SHORT : string :=
  "❌ Please provide more substantial news content (at least 10 characters).".

Definition newline : string := String (ascii_of_nat 10) EmptyString.

(** Line 108: the text returned by the [except] clause. *)
Definition error_report (e : exn) : string :=
  "❌ Error analyzing content: " ++ str_exn e ++ newline ++ newline
  ++ "Please try again with different text.".

(** ** [analyze_news] *)

(** [max(result, key=lambda x: x['score'])]: the running maximum is replaced
    only by an entry whose score is strictly greater. *)
Fixpoint max_from (best : Entry) (rest : list Entry) : Entry :=
  match rest with
  | [] => best
  | e :: rest' => max_from (if (score best <? score e)%float then e else best) rest'
  end.

Definition py_max (result : list Entry) : outcome Entry :=
  match result with
  | [] => Raise ValueError_max
  | e :: rest => Return (max_from e rest)
  end.

(** [l[0]] *)
Definition index0 {A} (l : list A) : outcome A :=
  match l with
  | [] => Raise IndexError
  | x :: _ => Return x
  end.

Definition analyze_news (svc : Services) (text : unicode) : M string :=
  if negb (truthy (strip text)) then
    ret MSG_EMPTY
  else if (len (strip text) <? 10)%nat then
    ret MSG_TOO_SHORT
  else
    try_except
      (docs <- call (Retrieve text) (get_relevant_documents svc text) ;;
       results <- call (Classify (slice_to 512 text)) (llm svc (slice_to 512 text)) ;;
       result <- lift (index0 results) ;;
       best_match <- lift (py_max result) ;;
       ret (build_report best_match (List.length docs)))
      (fun e => ret (error_report e)).

(** ** Vocabulary of the statements

    The definitions below are not part of app.py: they name the situations
    the properties speak of. *)

(** The input passes the two checks of lines 34-38. *)
Definition passes_validation (text : unicode) : bool :=
  truthy (strip text) && negb (len (strip text) <? 10)%nat.

(** Every character of the text is white space. *)
Fixpoint all_whitespace (s : unicode) : bool :=
  match s with
  | [] => true
  | c :: s' => isspace c && all_whitespace s'
  end.

(** The text neither starts nor ends with white space. *)
Definition trimmed (core : unicode) : Prop :=
  (forall c rest, core = c :: rest -> isspace c = false) /\
  (forall init c, core = (init ++ [c])%list -> isspace c = false).

(** What the body of the [try] block computes once both services answered. *)
Definition after_calls (docs : list Document) (results : list (list Entry)) : outcome string :=
  match index0 results with
  | Raise e => Raise e
  | Return result =>
      match py_max result with
      | Raise e => Raise e
      | Return best_match => Return (build_report best_match (List.length docs))
      end
  end.

(** The [except] clause seen from outside: an exception becomes its report. *)
Definition recover (o : outcome string) : outcome string :=
  match o with
  | Return a => Return a
  | Raise e => Return (error_report e)
  end.

(** The number of calls to the classifier in a trace. *)
Fixpoint classify_calls (trace : list Call) : nat :=
  match trace with
  | [] => 0
  | Classify _ :: trace' => S (classify_calls trace')
  | Retrieve _ :: trace' => classify_calls trace'
  end.

(** The score of the entry is a number (not a NaN); every score of the
    interval from 0 to 1 is one. *)
Definition is_number (e : Entry) : Prop := is_nan (score e) = false.

(** [s] contains [word], letter case ignored. *)
Definition contains_ignoring_case (word s : string) : Prop :=
  exists a w b, s = a ++ w ++ b /\ upper w = upper word.

Fixpoint has_char (c : ascii) (s : string) : bool :=
  match s with
  | EmptyString => false
  | String d s' => Ascii.eqb c d || has_char c s'
  end.

Fixpoint all_chars (P : ascii -> bool) (s : string) : bool :=
  match s with
  | EmptyString => true
  | String d s' => P d && all_chars P s'
  end.

Definition is_ascii7 (c : ascii) : bool := (nat_of_ascii c <? 128)%nat.

Definition is_digit (c : ascii) : bool :=
  ((48 <=? nat_of_ascii c) && (nat_of_ascii c <=? 57))%nat.

(** Sample inputs and services, used to run the pipeline on concrete data. *)
Module Sample.

Definition text : unicode := from_ascii "Scientists confirm water on Mars".

Definition padded_text : unicode := from_ascii "  Breaking news: markets rally  ".

(** Five letters e with an acute accent (U+00E9). *)
Definition accented_text : unicode := List.repeat 0xE9%N 5.

(** Three hundred such letters. *)
Definition long_accented_text : unicode := List.repeat 0xE9%N 300.

(** A no-break space (U+00A0) and an ideographic space (U+3000). *)
Definition unicode_blanks : unicode := [0xA0; 0x3000]%N.

Definition docs : list Document :=
  [mkDocument "first"; mkDocument "second"; mkDocument "third"].

(** The two classification results of the scenarios of the specification. *)
Definition result_label1 : list Entry :=
  [mkEntry "LABEL_1" 0.92; mkEntry "LABEL_0" 0.08].

Definition result_fake : list Entry :=
  [mkEntry "FAKE" 0.81; mkEntry "REAL" 0.19].

Definition result_tie : list Entry :=
  [mkEntry "LABEL_0" 0.25; mkEntry "FAKE" 0.5; mkEntry "REAL" 0.5].

(** Both services answer. *)
Definition svc_ok (result : list Entry) : Services :=
  mkServices (fun _ => Return docs) (fun _ => Return [result]).

(** The similarity index is unreachable. *)
Definition svc_index_down (result : list Entry) : Services :=
  mkServices (fun _ => Raise (ServiceError "connection refused"))
             (fun _ => Return [result]).

(** The classifier fails. *)
Definition svc_model_down : Services :=
  mkServices (fun _ => Return docs)
             (fun _ => Raise (ServiceError "model unavailable")).

End Sample.

(** A key whose lexicographic order is the order of the numbers that
    [spec_float]s stand for: class (infinities, negative, zero, positive),
    then exponent, then mantissa. *)
Definition sf_key (f : spec_float) : Z * Z * Z :=
  match f with
  | S754_zero _ => (0, 0, 0)
  | S754_infinity s => (if s then -2 else 2, 0, 0)
  | S754_nan => (0, 0, 0)
  | S754_finite s m e => if s then (-1, - e, Z.neg m) else (1, e, Z.pos m)
  end%Z.

Definition lex_lt (a b : Z * Z * Z) : Prop :=
  let '(a1, a2, a3) := a in
  let '(b1, b2, b3) := b in
  (a1 < b1 \/ (a1 = b1 /\ (a2 < b2 \/ (a2 = b2 /\ a3 < b3))))%Z.

(** ** Loading the module (lines 7-28 of app.py)

    The statements the module runs when it is loaded bind the globals
    [retriever] and [llm] that [analyze_news] reads.  The constructors of the
    libraries are parameters; each returns a value or raises. *)

Module Startup.

Definition Retriever : Type := unicode -> outcome (list Document).

Definition Classifier : Type := unicode -> outcome (list (list Entry)).

(** [HuggingFaceEmbeddings(model_name=...)],
    [Chroma(persist_directory=..., embedding_function=...)],
    [vectorstore.as_retriever(search_kwargs={"k": ...})] and
    [pipeline("text-classification", model=..., return_all_scores=True)]. *)
Record Loaders (Embeddings VectorStore : Type) : Type := mkLoaders {
  HuggingFaceEmbeddings : string -> outcome Embeddings;
  Chroma : string -> Embeddings -> outcome VectorStore;
  as_retriever : VectorStore -> nat -> outcome Retriever;
  pipeline : string -> outcome Classifier
}.
Arguments mkLoaders {Embeddings VectorStore}.
Arguments HuggingFaceEmbeddings {Embeddings VectorStore}.
Arguments Chroma {Embeddings VectorStore}.
Arguments as_retriever {Embeddings VectorStore}.
Arguments pipeline {Embeddings VectorStore}.

(** The two globals that [analyze_news] reads, bound or not yet, and the lines
    printed so far. *)
Record Globals : Type := mkGlobals {
  g_retriever : option Retriever;
  g_llm : option Classifier;
  stdout : list string
}.

Definition unloaded : Globals := mkGlobals None None [].

(** A statement of the module changes the globals and returns or raises. *)
Definition L (A : Type) : Type := Globals -> outcome A * Globals.

Definition lret {A} (a : A) : L A := fun g => (Return a, g).

Definition lbind {A B} (m : L A) (k : A -> L B) : L B :=
  fun g =>
    match m g with
    | (Return a, g') => k a g'
    | (Raise e, g') => (Raise e, g')
    end.

Definition ltry (m : L unit) (h : exn -> L unit) : L unit :=
  fun g =>
    match m g with
    | (Return a, g') => (Return a, g')
    | (Raise e, g') => h e g'
    end.

(** A call to a library constructor. *)
Definition ext {A} (o : outcome A) : L A := fun g => (o, g).

Definition print (line : string) : L unit :=
  fun g => (Return tt, mkGlobals (g_retriever g) (g_llm g) (stdout g ++ [line])%list).

Definition set_retriever (r : Retriever) : L unit :=
  fun g => (Return tt, mkGlobals (Some r) (g_llm g) (stdout g)).

Definition set_llm (m : Classifier) : L unit :=
  fun g => (Return tt, mkGlobals (g_retriever g) (Some m) (stdout g)).

Declare Scope load_scope.
Notation "x <- c1 ;; c2" := (lbind c1 (fun x => c2))
  (at level 61, c1 at next level, right associativity) : load_scope.
Notation "c1 ;; c2" := (lbind c1 (fun _ => c2))
  (at level 61, right associativity) : load_scope.

Definition EMBEDDING_MODEL : string := "all-MiniLM-L6-v2".

Definition PERSIST_DIRECTORY : string := "./fake_news_chroma_db".

Definition PRIMARY_MODEL : string := "mrm8488/distilbert-base-uncased-finetuned-fake-news".

Definition FALLBACK_MODEL : string := "distilbert-base-uncased-finetuned-sst-2-english".

Definition LINE_LOADING : string := "🚀 Loading Fake News Detector...".

Definition LINE_DATABASE : string := "✅ Vector database loaded successfully!".

Definition LINE_MODEL : string := "✅ AI model loaded successfully!".

Definition LINE_FALLBACK : string := "⚠️  Using fallback model".

Definition line_error (e : exn) : string := "❌ Error loading components: " ++ str_exn e.

Section Module_load.

Context {Embeddings VectorStore : Type}.
Variable ld : Loaders Embeddings VectorStore.

Local Open Scope load_scope.

(** Lines 11-22: the body of the [try]. *)
Definition load_components : L unit :=
  embeddings <- ext (HuggingFaceEmbeddings ld EMBEDDING_MODEL) ;;
  vectorstore <- ext (Chroma ld PERSIST_DIRECTORY embeddings) ;;
  retriever <- ext (as_retriever ld vectorstore 3) ;;
  set_retriever retriever ;;
  print LINE_DATABASE ;;
  llm <- ext (pipeline ld PRIMARY_MODEL) ;;
  set_llm llm ;;
  print LINE_MODEL.

(** Lines 24-28: the [except] clause. *)
Definition load_fallback (e : exn) : L unit :=
  print (line_error e) ;;
  llm <- ext (pipeline ld FALLBACK_MODEL) ;;
  set_llm llm ;;
  print LINE_FALLBACK.

(** Lines 8-28. *)
Definition module_load : L unit :=
  print LINE_LOADING ;;
  ltry load_components load_fallback.

End Module_load.

(** Reading a global: an unbound name raises [NameError], an exception whose
    text is [name '...' is not defined]. *)
Definition NameError (name : string) : exn :=
  ServiceError ("name '" ++ name ++ "' is not defined").

Definition global {A} (name : string) (v : option A) : outcome A :=
  match v with
  | Some a => Return a
  | None => Raise (NameError name)
  end.

(** [analyze_news] (lines 30-108) with its two reads of globals written out:
    [retriever] is read before the retriever is called, [llm] before the
    classifier is. *)
Definition analyze_news_in (g : Globals) (text : unicode) : M string :=
  if negb (truthy (strip text)) then
    ret MSG_EMPTY
  else if (len (strip text) <? 10)%nat then
    ret MSG_TOO_SHORT
  else
    try_except
      (retriever <- lift (global "retriever" (g_retriever g)) ;;
       docs <- call (Retrieve text) (retriever text) ;;
       llm <- lift (global "llm" (g_llm g)) ;;
       results <- call (Classify (slice_to 512 text)) (llm (slice_to 512 text)) ;;
       result <- lift (index0 results) ;;
       best_match <- lift (py_max result) ;;
       ret (build_report best_match (List.length docs)))
      (fun e => ret (error_report e)).

(** The first three constructors of the [try] block all return. *)
Definition database_loads {E V} (ld : Loaders E V) : Prop :=
  exists embeddings vectorstore retriever,
    HuggingFaceEmbeddings ld EMBEDDING_MODEL = Return embeddings /\
    Chroma ld PERSIST_DIRECTORY embeddings = Return vectorstore /\
    as_retriever ld vectorstore 3 = Return retriever.

(** What the [except] clause leaves behind, given the retriever bound so far
    and the lines printed so far. *)
Definition after_failure {E V} (ld : Loaders E V) (e : exn) (r : option Retriever)
    (out : list string) : outcome unit * Globals :=
  match pipeline ld FALLBACK_MODEL with
  | Return m => (Return tt, mkGlobals r (Some m) (out ++ [line_error e; LINE_FALLBACK]))
  | Raise e' => (Raise e', mkGlobals r None (out ++ [line_error e]))
  end.

(** Sample loaders: a vector database that cannot be opened, with both models
    available. *)
Definition sample_classifier (result : list Entry) : Classifier :=
  fun _ => Return [result].

Definition loaders_without_database : Loaders unit unit :=
  mkLoaders (fun _ => Return tt)
            (fun _ _ => Raise (ServiceError "no such directory"))
            (fun _ _ => Return (fun _ => Return Sample.docs))
            (fun name => Return (sample_classifier
                                   (if name =? PRIMARY_MODEL
                                    then Sample.result_label1
                                    else [mkEntry "POSITIVE" 0.75]))).

(** Sample loaders: everything loads but the primary model. *)
Definition loaders_without_primary : Loaders unit unit :=
  mkLoaders (fun _ => Return tt)
            (fun _ _ => Return tt)
            (fun _ _ => Return (fun _ => Return Sample.docs))
            (fun name => if name =? PRIMARY_MODEL
                         then Raise (ServiceError "model not found")
                         else Return (sample_classifier [mkEntry "POSITIVE" 0.75])).

End Startup.

(** * Lemmas *)

(** ** Strings *)

Lemma append_assoc (a b c : string) : (a ++ b) ++ c = a ++ b ++ c.
Proof. induction a as [|x a IH]; cbn; [reflexivity|now rewrite IH]. Qed.

Lemma has_char_app c a b : has_char c (a ++ b) = has_char c a || has_char c b.
Proof.
  induction a as [|x a IH]; cbn; [reflexivity|].
  rewrite IH. now rewrite orb_assoc.
Qed.

Lemma all_chars_app P a b : all_chars P (a ++ b) = all_chars P a && all_chars P b.
Proof.
  induction a as [|x a IH]; cbn; [reflexivity|].
  rewrite IH. now rewrite andb_assoc.
Qed.

Lemma all_chars_has_char P c s :
  all_chars P s = true -> has_char c s = true -> P c = true.
Proof.
  induction s as [|x s IH]; cbn; [discriminate|].
  intros Ha Hc. apply andb_prop in Ha as [Hx Hs].
  apply orb_prop in Hc as [Hc|Hc]; [|auto].
  apply Ascii.eqb_eq in Hc. now subst.
Qed.

Lemma prefix_app sub rest : prefix sub (sub ++ rest) = true.
Proof.
  induction sub as [|x sub IH]; cbn; [now destruct rest|].
  destruct (ascii_dec x x); [exact IH|congruence].
Qed.

Lemma prefix_has_char c sub s :
  prefix sub s = true -> has_char c sub = true -> has_char c s = true.
Proof.
  revert s. induction sub as [|x sub IH]; intros s Hp Hc; [discriminate|].
  destruct s as [|y s]; [discriminate|]. cbn in Hp.
  destruct (ascii_dec x y) as [->|]; [|discriminate].
  cbn in *. apply orb_prop in Hc as [Hc|Hc].
  - now rewrite Hc.
  - rewrite (IH s Hp Hc). apply orb_true_r.
Qed.

Lemma str_in_has_char c sub s :
  str_in sub s = true -> has_char c sub = true -> has_char c s = true.
Proof.
  intros Hin Hc. induction s as [|y s IH].
  - cbn in Hin. rewrite orb_false_r in Hin. eapply prefix_has_char; eauto.
  - cbn [str_in] in Hin. apply orb_prop in Hin as [Hp|Hs].
    + eapply prefix_has_char; eauto.
    + cbn. rewrite (IH Hs). apply orb_true_r.
Qed.

Lemma str_in_app a sub b : str_in sub (a ++ sub ++ b) = true.
Proof.
  induction a as [|x a IH].
  - cbn [append]. destruct (sub ++ b) eqn:E; cbn [str_in].
    + rewrite <- E, prefix_app. reflexivity.
    + rewrite <- E, prefix_app. reflexivity.
  - cbn [append str_in]. rewrite IH. apply orb_true_r.
Qed.

Lemma upper_app a b : upper (a ++ b) = upper a ++ upper b.
Proof. induction a as [|x a IH]; cbn; [reflexivity|now rewrite IH]. Qed.

Lemma prefix_upper_inv X :
  forall s, prefix X (upper s) = true -> exists t b, s = t ++ b /\ upper t = X.
Proof.
  induction X as [|x X IH]; intros s H.
  - exists "", s. split; reflexivity.
  - destruct s as [|y s]; [discriminate|]. cbn in H.
    destruct (ascii_dec x (upper_char y)) as [->|]; [|discriminate].
    destruct (IH s H) as (t & b & -> & <-).
    exists (String y t), b. split; reflexivity.
Qed.

Lemma str_in_upper_inv X s :
  str_in X (upper s) = true -> exists a t b, s = a ++ t ++ b /\ upper t = X.
Proof.
  induction s as [|y s IH]; intros H.
  - cbn in H. rewrite orb_false_r in H.
    destruct (prefix_upper_inv X "" H) as (t & b & E & U). exists "", t, b. auto.
  - cbn [upper str_in] in H. apply orb_prop in H as [H|H].
    + destruct (prefix_upper_inv X (String y s) H) as (t & b & E & U). exists "", t, b. auto.
    + destruct (IH H) as (a & t & b & -> & U). exists (String y a), t, b. auto.
Qed.

Lemma contains_ignoring_case_iff word s :
  contains_ignoring_case word s <-> str_in (upper word) (upper s) = true.
Proof.
  split.
  - intros (a & w & b & -> & U). rewrite !upper_app, U. apply str_in_app.
  - intros H. apply str_in_upper_inv in H as (a & t & b & E & U).
    exists a, t, b. split; [exact E|]. exact U.
Qed.

(** ** White space and [strip] *)

Section Strip.

Local Open Scope list_scope.

Lemma isspace_spec c :
  isspace c = true <->
  (0x9 <= c <= 0xD \/ 0x1C <= c <= 0x20 \/ c = 0x85 \/ c = 0xA0 \/ c = 0x1680 \/
   0x2000 <= c <= 0x200A \/ c = 0x2028 \/ c = 0x2029 \/ c = 0x202F \/
   c = 0x205F \/ c = 0x3000)%N.
Proof.
  unfold isspace.
  rewrite !orb_true_iff, !andb_true_iff, !N.leb_le, !N.eqb_eq. tauto.
Qed.

Lemma all_whitespace_Forall s :
  all_whitespace s = true <-> Forall (fun c => isspace c = true) s.
Proof.
  induction s as [|c s IH]; cbn.
  - split; [constructor|reflexivity].
  - rewrite andb_true_iff, IH. split.
    + intros [H1 H2]. constructor; assumption.
    + intros H. inversion H. auto.
Qed.

Lemma all_whitespace_app a b :
  all_whitespace (a ++ b) = all_whitespace a && all_whitespace b.
Proof.
  induction a as [|c a IH]; cbn; [reflexivity|].
  rewrite IH. apply andb_assoc.
Qed.

Lemma lstrip_all_whitespace s : all_whitespace s = true -> lstrip s = [].
Proof.
  induction s as [|c s IH]; cbn; [reflexivity|].
  intros H. apply andb_prop in H as [Hc Hs]. rewrite Hc. auto.
Qed.

Lemma rstrip_empty s : rstrip s = [] -> all_whitespace s = true.
Proof.
  induction s as [|c s IH]; cbn; [reflexivity|].
  destruct (rstrip s) eqn:E; [|discriminate].
  destruct (isspace c); [|discriminate]. intros _. now rewrite IH.
Qed.

Lemma lstrip_whitespace_inv s : all_whitespace (lstrip s) = true -> all_whitespace s = true.
Proof.
  induction s as [|c s IH]; cbn; [reflexivity|].
  destruct (isspace c) eqn:E; [exact IH|].
  cbn. rewrite E. discriminate.
Qed.

Lemma strip_empty_iff s : strip s = [] <-> all_whitespace s = true.
Proof.
  unfold strip. split.
  - intros H. apply lstrip_whitespace_inv, rstrip_empty, H.
  - intros H. rewrite (lstrip_all_whitespace s H). reflexivity.
Qed.

Lemma lstrip_app_whitespace a s : all_whitespace a = true -> lstrip (a ++ s) = lstrip s.
Proof.
  induction a as [|c a IH]; cbn; [reflexivity|].
  intros H. apply andb_prop in H as [Hc Ha]. rewrite Hc. auto.
Qed.

Lemma rstrip_whitespace b : all_whitespace b = true -> rstrip b = [].
Proof.
  induction b as [|c b IH]; cbn; [reflexivity|].
  intros H. apply andb_prop in H as [Hc Hb]. rewrite (IH Hb), Hc. reflexivity.
Qed.

Lemma rstrip_app_whitespace s b : all_whitespace b = true -> rstrip (s ++ b) = rstrip s.
Proof.
  intros Hb. induction s as [|c s IH]; cbn.
  - apply rstrip_whitespace. exact Hb.
  - rewrite IH. reflexivity.
Qed.

Lemma lstrip_app_r s b : lstrip s <> [] -> lstrip (s ++ b) = lstrip s ++ b.
Proof.
  induction s as [|c s IH]; cbn; [congruence|].
  destruct (isspace c); [exact IH|reflexivity].
Qed.

(** Padding with white space does not change the trimmed text. *)
Lemma strip_padding a s b :
  all_whitespace a = true -> all_whitespace b = true ->
  strip (a ++ s ++ b) = strip s.
Proof.
  intros Ha Hb. unfold strip. rewrite (lstrip_app_whitespace a _ Ha).
  destruct (lstrip s) as [|c t] eqn:E.
  - assert (Hs : all_whitespace s = true).
    { apply lstrip_whitespace_inv. rewrite E. reflexivity. }
    rewrite lstrip_all_whitespace; [reflexivity|].
    rewrite all_whitespace_app, Hs, Hb. reflexivity.
  - rewrite lstrip_app_r by (rewrite E; discriminate).
    rewrite E. apply rstrip_app_whitespace. exact Hb.
Qed.

Lemma lstrip_decompose s :
  exists a, s = a ++ lstrip s /\ all_whitespace a = true.
Proof.
  induction s as [|c s (a & E & Ha)]; cbn.
  - exists []. split; reflexivity.
  - destruct (isspace c) eqn:Hc.
    + exists (c :: a). cbn. rewrite Hc, Ha, <- E. split; reflexivity.
    + exists []. split; reflexivity.
Qed.

Lemma rstrip_decompose s :
  exists b, s = rstrip s ++ b /\ all_whitespace b = true.
Proof.
  induction s as [|c s (b & E & Hb)]; cbn.
  - exists []. split; reflexivity.
  - destruct (rstrip s) as [|d r] eqn:R.
    + cbn in E. subst s. destruct (isspace c) eqn:Hc.
      * exists (c :: b). cbn. rewrite Hc, Hb. split; reflexivity.
      * exists b. split; [reflexivity|exact Hb].
    + exists b. split; [|exact Hb]. cbn. f_equal. exact E.
Qed.

Lemma lstrip_head s c rest : lstrip s = c :: rest -> isspace c = false.
Proof.
  induction s as [|d s IH]; cbn; [discriminate|].
  destruct (isspace d) eqn:Hd; [exact IH|].
  intros H. injection H as <- _. exact Hd.
Qed.

Lemma rstrip_last s : forall init c, rstrip s = init ++ [c] -> isspace c = false.
Proof.
  induction s as [|d s IH]; cbn; intros init c H.
  - destruct init; discriminate.
  - destruct (rstrip s) as [|e r] eqn:R.
    + destruct (isspace d) eqn:Hd.
      * destruct init; discriminate.
      * destruct init as [|x init]; cbn in H.
        -- injection H as <-. exact Hd.
        -- injection H as _ H. destruct init; discriminate.
    + destruct init as [|x init]; cbn in H.
      * discriminate.
      * injection H as _ H. apply (IH init c). exact H.
Qed.

(** A text that starts with a character that is no white space keeps it, and
    all that precedes its last such character, under [rstrip]. *)
Lemma rstrip_head c s : isspace c = false -> exists r, rstrip (c :: s) = c :: r.
Proof.
  intros Hc. cbn. destruct (rstrip s); [rewrite Hc|]; eexists; reflexivity.
Qed.

Lemma rstrip_trimmed core :
  (forall init c, core = init ++ [c] -> isspace c = false) -> rstrip core = core.
Proof.
  intros H. destruct (rstrip_decompose core) as (b & E & Hb).
  destruct b as [|x b] using rev_ind.
  - rewrite app_nil_r in E. symmetry. exact E.
  - clear IHb. rewrite all_whitespace_app in Hb. apply andb_prop in Hb as [_ Hx].
    cbn in Hx. rewrite andb_true_r in Hx.
    rewrite app_assoc in E. rewrite (H _ _ E) in Hx. discriminate.
Qed.

Lemma lstrip_trimmed core :
  (forall c rest, core = c :: rest -> isspace c = false) -> lstrip core = core.
Proof.
  intros H. destruct core as [|c rest]; [reflexivity|].
  cbn. rewrite (H c rest eq_refl). reflexivity.
Qed.

Lemma strip_of_trimmed core : trimmed core -> strip core = core.
Proof.
  intros [H1 H2]. unfold strip. rewrite (lstrip_trimmed core H1).
  apply rstrip_trimmed. exact H2.
Qed.

(** The trimmed text is trimmed. *)
Lemma strip_is_trimmed s : trimmed (strip s).
Proof.
  unfold strip. split.
  - intros c rest H.
    destruct (lstrip s) as [|d t] eqn:L; [discriminate|].
    pose proof (lstrip_head s d t L) as Hd.
    destruct (rstrip_head d t Hd) as [r R]. rewrite R in H.
    injection H as <- _. exact Hd.
  - intros init c H. apply (rstrip_last _ init c H).
Qed.

(** The input is its trimmed text between two runs of white space. *)
Lemma strip_decompose s :
  exists a b, s = a ++ strip s ++ b /\
              all_whitespace a = true /\ all_whitespace b = true.
Proof.
  destruct (lstrip_decompose s) as (a & E & Ha).
  destruct (rstrip_decompose (lstrip s)) as (b & E' & Hb).
  exists a, b. unfold strip. rewrite <- E', <- E. auto.
Qed.

Lemma strip_of_decomposition a core b :
  all_whitespace a = true -> all_whitespace b = true -> trimmed core ->
  strip (a ++ core ++ b) = core.
Proof.
  intros Ha Hb T. rewrite (strip_padding a core b Ha Hb).
  apply strip_of_trimmed. exact T.
Qed.

End Strip.

(** ** The characters of printed numbers *)

Lemma all_chars_uint d : all_chars is_ascii7 (NilEmpty.string_of_uint d) = true.
Proof. induction d; cbn [NilEmpty.string_of_uint all_chars]; try rewrite IHd; reflexivity. Qed.

Lemma all_chars_uint0 d : all_chars is_ascii7 (NilZero.string_of_uint d) = true.
Proof. destruct d; try reflexivity; apply (all_chars_uint (_ _)). Qed.

Lemma all_chars_format_pct1 x : all_chars is_ascii7 (format_pct1 x) = true.
Proof.
  unfold format_pct1, format_f1.
  destruct (Prim2SF _) as [s|s| |s m e]; try destruct s; try reflexivity.
  all: cbn [sign_str append all_chars]; rewrite ?all_chars_app; cbn [all_chars];
    unfold str_of_N; rewrite ?all_chars_uint0; reflexivity.
Qed.

(** ** The order of scores *)

Section ScoreOrder.

Local Open Scope Z_scope.

Ltac key_case := try (split; [discriminate | lia]); try (split; [lia | reflexivity]).

Lemma SFltb_key f g :
  f <> S754_nan -> g <> S754_nan ->
  SFltb f g = true <-> lex_lt (sf_key f) (sf_key g).
Proof.
  intros Hf Hg. unfold SFltb, SFcompare.
  destruct f as [s1|s1| |s1 m1 e1], g as [s2|s2| |s2 m2 e2]; try congruence;
    try destruct s1; try destruct s2; cbn -[Z.compare Pos.compare_cont]; key_case.
  all: change (Pos.compare_cont Eq m1 m2) with (Pos.compare m1 m2).
  all: destruct (Z.compare_spec e1 e2); cbn; key_case.
  all: destruct (Pos.compare_spec m1 m2); cbn; key_case.
Qed.

Lemma SFleb_key f g :
  f <> S754_nan -> g <> S754_nan ->
  SFleb f g = true <-> ~ lex_lt (sf_key g) (sf_key f).
Proof.
  intros Hf Hg. unfold SFleb, SFcompare.
  destruct f as [s1|s1| |s1 m1 e1], g as [s2|s2| |s2 m2 e2]; try congruence;
    try destruct s1; try destruct s2; cbn -[Z.compare Pos.compare_cont]; key_case.
  all: change (Pos.compare_cont Eq m1 m2) with (Pos.compare m1 m2).
  all: destruct (Z.compare_spec e1 e2); cbn; key_case.
  all: destruct (Pos.compare_spec m1 m2); cbn; key_case.
Qed.

Lemma SFltb_nan_l g : SFltb S754_nan g = false.
Proof. reflexivity. Qed.

Lemma SFltb_nan_r f : SFltb f S754_nan = false.
Proof. destruct f as [s|s| |s m e]; reflexivity. Qed.

Lemma Prim2SF_not_nan x : is_nan x = false -> Prim2SF x <> S754_nan.
Proof.
  intros H. unfold Prim2SF. rewrite H.
  destruct (is_zero x); [discriminate|].
  destruct (is_infinity x); [discriminate|].
  destruct (Z.frexp x) as [r ex].
  destruct (shr_fexp _ _ _ _ _) as [shr e'].
  destruct (shr_m shr); discriminate.
Qed.

Local Open Scope float_scope.

Lemma SFltb_asym f g : SFltb f g = true -> SFltb g f = false.
Proof.
  intros H.
  assert (Nf : f <> S754_nan).
  { intros ->. rewrite SFltb_nan_l in H. discriminate. }
  assert (Ng : g <> S754_nan).
  { intros ->. rewrite SFltb_nan_r in H. discriminate. }
  apply SFltb_key in H; [|assumption|assumption].
  apply not_true_is_false. intros H'.
  apply SFltb_key in H'; [|assumption|assumption].
  unfold lex_lt in *.
  destruct (sf_key f) as [[a1 a2] a3].
  destruct (sf_key g) as [[b1 b2] b3]. lia.
Qed.

(** [x < y] excludes [y < x], NaN or not. *)
Lemma ltb_asym x y : (x <? y) = true -> (y <? x) = false.
Proof. rewrite !ltb_spec. apply SFltb_asym. Qed.

Lemma ltb_irrefl x : (x <? x) = false.
Proof.
  destruct (x <? x) eqn:E; [|reflexivity].
  pose proof (ltb_asym _ _ E). congruence.
Qed.

(** On numbers, [x <= m < e] gives [x < e]. *)
Lemma ltb_le_lt_trans x m e :
  is_nan x = false -> is_nan m = false -> is_nan e = false ->
  (m <? x) = false -> (m <? e) = true -> (x <? e) = true.
Proof.
  intros Nx Nm Ne. rewrite !ltb_spec.
  apply Prim2SF_not_nan in Nx, Nm, Ne.
  intros H1 H2.
  apply SFltb_key in H2; [|assumption|assumption].
  apply SFltb_key; [assumption|assumption|].
  assert (H1' : ~ lex_lt (sf_key (Prim2SF m)) (sf_key (Prim2SF x))).
  { intros C. apply SFltb_key in C; [congruence|assumption|assumption]. }
  unfold lex_lt in *.
  destruct (sf_key (Prim2SF x)) as [[a1 a2] a3].
  destruct (sf_key (Prim2SF m)) as [[b1 b2] b3].
  destruct (sf_key (Prim2SF e)) as [[c1 c2] c3]. lia.
Qed.

Lemma leb_of_not_ltb x y :
  is_nan x = false -> is_nan y = false ->
  (y <? x) = false -> (x <=? y) = true.
Proof.
  intros Nx Ny. rewrite ltb_spec, leb_spec.
  apply Prim2SF_not_nan in Nx, Ny. intros H.
  apply SFleb_key; [assumption|assumption|].
  intros C. apply SFltb_key in C; [congruence|assumption|assumption].
Qed.

Lemma Prim2SF_nan x : is_nan x = true -> Prim2SF x = S754_nan.
Proof. intros H. unfold Prim2SF. rewrite H. reflexivity. Qed.

(** A score that is at least 0 is a number; so is every score of the
    interval from 0 to 1. *)
Lemma nonnegative_score_is_number e : (0 <=? score e) = true -> is_number e.
Proof.
  intros H. unfold is_number.
  destruct (is_nan (score e)) eqn:E; [|reflexivity].
  rewrite leb_spec, (Prim2SF_nan _ E) in H. vm_compute in H. discriminate.
Qed.

End ScoreOrder.

(** ** The selected entry *)

Section Selection.

Local Open Scope float_scope.

(** The running maximum after a prefix [pre ++ best :: post] that has been
    read: what comes before it is strictly smaller, what comes after it is
    not greater.  Reading on keeps this shape. *)
Lemma max_from_invariant rest :
  forall pre best post,
    Forall is_number (pre ++ best :: post ++ rest) ->
    (forall e, In e pre -> (score e <? score best) = true) ->
    (forall e, In e post -> (score best <? score e) = false) ->
    exists pre' post',
      (pre ++ best :: post ++ rest)%list = (pre' ++ max_from best rest :: post')%list /\
      (forall e, In e pre' -> (score e <? score (max_from best rest)) = true) /\
      (forall e, In e post' -> (score (max_from best rest) <? score e) = false).
Proof.
  induction rest as [|x rest IH]; intros pre best post Hn Hpre Hpost.
  - exists pre, post. rewrite app_nil_r. auto.
  - cbn [max_from].
    assert (Nall : forall e, In e (pre ++ best :: post ++ x :: rest) -> is_number e).
    { apply Forall_forall. exact Hn. }
    assert (Nbest : is_number best).
    { apply Nall. apply in_or_app. right. left. reflexivity. }
    assert (Nx : is_number x).
    { apply Nall. apply in_or_app. right. right. apply in_or_app. right. left. reflexivity. }
    destruct (score best <? score x) eqn:E.
    + destruct (IH (pre ++ best :: post)%list x []) as (pre' & post' & Heq & H1 & H2).
      * cbn [app]. rewrite <- app_assoc. cbn [app]. exact Hn.
      * intros e He. apply in_app_or in He as [He|[<-|He]].
        -- apply ltb_le_lt_trans with (m := score best); auto.
           ++ apply Nall. apply in_or_app. left. exact He.
           ++ apply ltb_asym. apply Hpre. exact He.
        -- exact E.
        -- apply ltb_le_lt_trans with (m := score best); auto.
           apply Nall. apply in_or_app. right. right. apply in_or_app. left. exact He.
      * intros e [].
      * exists pre', post'. split; [|split; assumption].
        rewrite <- Heq. cbn [app]. rewrite <- app_assoc. reflexivity.
    + destruct (IH pre best (post ++ [x])%list) as (pre' & post' & Heq & H1 & H2).
      * rewrite <- app_assoc. exact Hn.
      * exact Hpre.
      * intros e He. apply in_app_or in He as [He|[<-|[]]]; auto.
      * exists pre', post'. split; [|split; assumption].
        rewrite <- Heq. rewrite <- app_assoc. reflexivity.
Qed.

(** An entry that is strictly above everything read before it, and not below
    anything read after it, is the one selected. *)
Lemma max_from_reaches first pre :
  forall best post,
    (forall e, In e (first :: pre) -> (score e <? score best) = true) ->
    (forall e, In e post -> (score best <? score e) = false) ->
    max_from first (pre ++ best :: post) = best.
Proof.
  revert first. induction pre as [|p pre IH]; intros first best post Hpre Hpost.
  - cbn [app max_from]. rewrite (Hpre first (or_introl eq_refl)).
    clear Hpre. induction post as [|q post IHp]; [reflexivity|].
    cbn [max_from]. rewrite (Hpost q (or_introl eq_refl)).
    apply IHp. intros e He. apply Hpost. right. exact He.
  - cbn [app max_from]. apply IH; [|exact Hpost].
    intros e [<-|He].
    + destruct (score first <? score p); apply Hpre; [right; left|left]; reflexivity.
    + apply Hpre. right. right. exact He.
Qed.

Lemma max_from_stays best post :
  (forall e, In e post -> (score best <? score e) = false) ->
  max_from best post = best.
Proof.
  induction post as [|q post IH]; intros Hpost; [reflexivity|].
  cbn [max_from]. rewrite (Hpost q (or_introl eq_refl)).
  apply IH. intros e He. apply Hpost. right. exact He.
Qed.

Lemma py_max_unique_maximum pre best post :
  (forall e, In e (pre ++ post) -> (score e <? score best) = true) ->
  py_max (pre ++ best :: post) = Return best.
Proof.
  intros H.
  assert (Hpost : forall e, In e post -> (score best <? score e) = false).
  { intros e He. apply ltb_asym, H, in_or_app. right. exact He. }
  destruct pre as [|first pre]; cbn [app py_max]; f_equal.
  - apply max_from_stays. exact Hpost.
  - apply max_from_reaches; [|exact Hpost].
    intros e He. apply H. apply in_or_app. left. exact He.
Qed.

Lemma py_max_permutation pre best post result' :
  Permutation (pre ++ best :: post) result' ->
  (forall e, In e (pre ++ post) -> (score e <? score best) = true) ->
  py_max result' = Return best.
Proof.
  intros P H.
  assert (Hin : In best result').
  { apply (Permutation_in _ P). apply in_or_app. right. left. reflexivity. }
  apply in_split in Hin as (pre' & post' & ->).
  apply Permutation_app_inv in P.
  apply py_max_unique_maximum.
  intros e He. apply H. apply (Permutation_in _ (Permutation_sym P)). exact He.
Qed.

End Selection.

(** ** Running the pipeline: one equation per path *)

Lemma passes_validation_length text :
  passes_validation text = true <-> (10 <= List.length (strip text))%nat.
Proof.
  unfold passes_validation, len. split.
  - intros H. apply andb_prop in H as [_ H].
    apply negb_true_iff, Nat.ltb_ge in H. exact H.
  - intros H. apply andb_true_intro. split.
    + destruct (strip text); [simpl in H; lia | reflexivity].
    + apply negb_true_iff, Nat.ltb_ge. exact H.
Qed.

Lemma run_invalid_empty svc text :
  strip text = [] -> run (analyze_news svc text) = (Return MSG_EMPTY, []).
Proof.
  intros H. unfold run, analyze_news. rewrite H. reflexivity.
Qed.

Lemma run_invalid_short svc text :
  (0 < List.length (strip text) < 10)%nat ->
  run (analyze_news svc text) = (Return MSG_TOO_SHORT, []).
Proof.
  intros [Hpos Hlt]. unfold run, analyze_news, len.
  destruct (strip text) as [|c s] eqn:E; [simpl in Hpos; lia|].
  cbn [truthy negb].
  apply Nat.ltb_lt in Hlt. rewrite Hlt. reflexivity.
Qed.

Lemma run_valid svc text :
  passes_validation text = true ->
  run (analyze_news svc text) =
  match get_relevant_documents svc text with
  | Raise e => (Return (error_report e), [Retrieve text])
  | Return docs =>
      match llm svc (slice_to 512 text) with
      | Raise e =>
          (Return (error_report e), [Retrieve text; Classify (slice_to 512 text)])
      | Return results =>
          (recover (after_calls docs results),
           [Retrieve text; Classify (slice_to 512 text)])
      end
  end.
Proof.
  intros H. unfold passes_validation in H. apply andb_prop in H as [Ht Hl].
  unfold run, analyze_news. rewrite Ht.
  apply negb_true_iff in Hl. rewrite Hl. cbn [negb].
  unfold try_except, bind, call, lift, ret, after_calls, recover.
  destruct (get_relevant_documents svc text) as [docs|e]; [|reflexivity].
  destruct (llm svc (slice_to 512 text)) as [results|e]; [|reflexivity].
  destruct (index0 results) as [result|e]; [|reflexivity].
  destruct (py_max result) as [best|e]; reflexivity.
Qed.

(** [analyze_news] always returns a text: no exception escapes it. *)
Lemma analyze_news_returns svc text :
  exists out, fst (run (analyze_news svc text)) = Return out.
Proof.
  destruct (passes_validation text) eqn:V.
  - rewrite (run_valid svc text V).
    destruct (get_relevant_documents svc text) as [docs|]; [|eexists; reflexivity].
    destruct (llm svc (slice_to 512 text)) as [results|]; [|eexists; reflexivity].
    cbn [fst]. destruct (after_calls docs results); eexists; reflexivity.
  - unfold run, analyze_news. unfold passes_validation in V.
    destruct (truthy (strip text)); [|eexists; reflexivity].
    cbn [negb andb] in *. apply negb_false_iff in V. rewrite V.
    eexists; reflexivity.
Qed.


(** The successful path: both services answer and the first list of the
    classifier's answer is not empty. *)
Lemma run_success svc text docs result rest best :
  passes_validation text = true ->
  get_relevant_documents svc text = Return docs ->
  llm svc (slice_to 512 text) = Return (result :: rest) ->
  py_max result = Return best ->
  run (analyze_news svc text) =
  (Return (build_report best (List.length docs)),
   [Retrieve text; Classify (slice_to 512 text)]).
Proof.
  intros V Hd Hl Hb. rewrite (run_valid svc text V), Hd, Hl.
  unfold after_calls. cbn [index0]. rewrite Hb. reflexivity.
Qed.

Lemma build_report_unfold best n :
  build_report best n =
  analysis_header (fst (label_and_color best)) (snd (label_and_color best)) (score best) n
  ++ advice (fst (label_and_color best)) ++ LITERACY_TIP.
Proof.
  unfold build_report. destruct (label_and_color best) as [l c]. cbn [fst snd].
  apply append_assoc.
Qed.

(** The four outcomes of lines 50-59. *)
Lemma label_and_color_cases best :
  label_and_color best = ("✅ LIKELY CREDIBLE", "#22c55e") \/
  label_and_color best = ("🚨 POTENTIALLY MISLEADING", "#ef4444") \/
  label_and_color best = ("✅ CREDIBLE", "#22c55e") \/
  label_and_color best = ("🚨 SUSPICIOUS", "#ef4444").
Proof.
  unfold label_and_color.
  destruct ((label best =? "LABEL_1") || str_in "REAL" (upper (label best))); [auto|].
  destruct ((label best =? "LABEL_0") || str_in "FAKE" (upper (label best))); [auto|].
  destruct (label best =? "POSITIVE"); auto.
Qed.

Lemma label_and_color_first best :
  label best = "LABEL_1" \/ contains_ignoring_case "real" (label best) ->
  label_and_color best = ("✅ LIKELY CREDIBLE", "#22c55e").
Proof.
  intros H. unfold label_and_color.
  replace ((label best =? "LABEL_1") || str_in "REAL" (upper (label best))) with true;
    [reflexivity|].
  symmetry. apply orb_true_iff. destruct H as [H|H].
  - left. apply String.eqb_eq. exact H.
  - right. apply (contains_ignoring_case_iff "real"). exact H.
Qed.

Lemma label_and_color_second best :
  label best <> "LABEL_1" -> ~ contains_ignoring_case "real" (label best) ->
  label best = "LABEL_0" \/ contains_ignoring_case "fake" (label best) ->
  label_and_color best = ("🚨 POTENTIALLY MISLEADING", "#ef4444").
Proof.
  intros N1 N2 H. unfold label_and_color.
  replace ((label best =? "LABEL_1") || str_in "REAL" (upper (label best))) with false.
  - replace ((label best =? "LABEL_0") || str_in "FAKE" (upper (label best))) with true;
      [reflexivity|].
    symmetry. apply orb_true_iff. destruct H as [H|H].
    + left. apply String.eqb_eq. exact H.
    + right. apply (contains_ignoring_case_iff "fake"). exact H.
  - symmetry. apply orb_false_iff. split.
    + apply String.eqb_neq. exact N1.
    + apply not_true_is_false. intros C. apply N2.
      apply (contains_ignoring_case_iff "real"). exact C.
Qed.


(** ** Slices *)

Lemma slice_to_length n (s : unicode) :
  List.length (slice_to n s) = Nat.min n (List.length s).
Proof. unfold slice_to. apply length_firstn. Qed.

Lemma slice_to_prefix n (s : unicode) :
  s = (slice_to n s ++ skipn n s)%list.
Proof. unfold slice_to. symmetry. apply firstn_skipn. Qed.

Lemma slice_to_short n (s : unicode) :
  (List.length s <= n)%nat -> slice_to n s = s.
Proof. unfold slice_to. apply firstn_all2. Qed.

(** ** The maximum that [py_max] returns *)

Section Maximum.

Local Open Scope float_scope.

(** On scores that are numbers, [py_max] returns the first entry whose score
    no other entry exceeds. *)
Lemma py_max_first_maximum result :
  result <> [] -> Forall is_number result ->
  exists best pre post,
    py_max result = Return best /\
    result = (pre ++ best :: post)%list /\
    (forall e, In e pre -> (score e <? score best) = true) /\
    (forall e, In e post -> (score best <? score e) = false).
Proof.
  intros Hne Hn. destruct result as [|first rest]; [congruence|].
  destruct (max_from_invariant rest [] first []) as (pre & post & Heq & H1 & H2).
  - exact Hn.
  - intros e [].
  - intros e [].
  - exists (max_from first rest), pre, post. cbn [app] in Heq. auto.
Qed.

Lemma split_maximum pre best post :
  Forall is_number (pre ++ best :: post) ->
  (forall e, In e pre -> (score e <? score best) = true) ->
  (forall e, In e post -> (score best <? score e) = false) ->
  forall e, In e (pre ++ best :: post) -> (score e <=? score best) = true.
Proof.
  intros Hn Hpre Hpost e He.
  assert (Nall : forall x, In x (pre ++ best :: post) -> is_number x).
  { apply Forall_forall. exact Hn. }
  assert (Nb : is_number best).
  { apply Nall, in_or_app. right. left. reflexivity. }
  apply leb_of_not_ltb; [apply Nall; exact He|exact Nb|].
  apply in_app_or in He as [He|[<-|He]].
  - apply ltb_asym, Hpre, He.
  - apply ltb_irrefl.
  - apply Hpost, He.
Qed.

Lemma py_max_in result best : py_max result = Return best -> In best result.
Proof.
  destruct result as [|first rest]; [discriminate|].
  cbn [py_max]. intros H. injection H as <-.
  revert first. induction rest as [|x rest IH]; intros first; [left; reflexivity|].
  cbn [max_from]. destruct (IH (if score first <? score x then x else first)) as [H|H].
  - destruct (score first <? score x); [right; left|left]; exact H.
  - right. right. exact H.
Qed.

Lemma py_max_is_maximum result best :
  py_max result = Return best -> Forall is_number result ->
  forall e, In e result -> (score e <=? score best) = true.
Proof.
  intros Hb Hn.
  destruct (py_max_first_maximum result) as (b & pre & post & Hb' & Heq & H1 & H2).
  - intros ->. discriminate.
  - exact Hn.
  - rewrite Hb in Hb'. injection Hb' as <-. rewrite Heq.
    apply split_maximum; [rewrite <- Heq; exact Hn|exact H1|exact H2].
Qed.

End Maximum.

(** ** Rounding to tenths *)

(** [div_half_even a b] is an integer nearest to [a / b]: it is off by at
    most one half. *)
Lemma div_half_even_nearest a b :
  (0 < b)%Z -> (2 * Z.abs (b * div_half_even a b - a) <= b)%Z.
Proof.
  intros Hb. unfold div_half_even.
  pose proof (Z.div_mod a b ltac:(lia)) as Hdm.
  pose proof (Z.mod_pos_bound a b Hb) as Hr.
  set (q := (a / b)%Z) in *. set (r := (a mod b)%Z) in *.
  destruct (Z.ltb_spec (2 * r) b) as [H1|H1].
  - replace (b * q - a)%Z with (- r)%Z by lia. lia.
  - destruct (Z.ltb_spec b (2 * r)) as [H2|H2].
    + replace (b * (q + 1) - a)%Z with (b - r)%Z by lia. lia.
    + destruct (Z.even q).
      * replace (b * q - a)%Z with (- r)%Z by lia. lia.
      * replace (b * (q + 1) - a)%Z with (b - r)%Z by lia. lia.
Qed.

(** ** The shape of a printed percentage *)

Lemma all_chars_digits_uint d : all_chars is_digit (NilEmpty.string_of_uint d) = true.
Proof. induction d; cbn [NilEmpty.string_of_uint all_chars]; try rewrite IHd; reflexivity. Qed.

Lemma str_of_N_digits n : all_chars is_digit (str_of_N n) = true /\ str_of_N n <> "".
Proof.
  unfold str_of_N. destruct (N.to_uint n) as [|d|d|d|d|d|d|d|d|d|d].
  1: split; [reflexivity|discriminate].
  all: split; [apply (all_chars_digits_uint (_ d))|discriminate].
Qed.

Lemma str_of_N_one_digit n :
  (n < 10)%N -> exists d, str_of_N n = String d "" /\ is_digit d = true.
Proof.
  intros H. destruct n as [|p]; [eexists; split; reflexivity|].
  do 4 (try destruct p as [p|p|]); try lia; eexists; split; reflexivity.
Qed.

Lemma Prim2SF_infinity y s : Prim2SF y = S754_infinity s -> is_infinity y = true.
Proof.
  unfold Prim2SF.
  destruct (is_nan y); [discriminate|].
  destruct (is_zero y); [discriminate|].
  destruct (is_infinity y); [reflexivity|].
  destruct (Z.frexp y) as [r ex].
  destruct (shr_fexp _ _ _ _ _) as [shr e'].
  destruct (shr_m shr); discriminate.
Qed.

(** A score whose hundredfold is finite prints as an optional minus sign,
    digits, a point, one digit and the percent sign. *)
Lemma format_pct1_shape x :
  is_nan (x * 100)%float = false -> is_infinity (x * 100)%float = false ->
  exists sign whole d,
    format_pct1 x = sign ++ whole ++ "." ++ String d "%" /\
    (sign = "" \/ sign = "-") /\
    whole <> "" /\ all_chars is_digit whole = true /\ is_digit d = true.
Proof.
  intros Hn Hi. unfold format_pct1, format_f1.
  destruct (Prim2SF (x * 100)%float) as [s|s| |s m e] eqn:E.
  - exists (sign_str s), "0", "0"%char.
    split; [destruct s; reflexivity|].
    split; [destruct s; auto|]. split; [discriminate|]. split; reflexivity.
  - apply Prim2SF_infinity in E. congruence.
  - apply Prim2SF_not_nan in Hn. congruence.
  - cbv zeta.
    destruct (str_of_N_one_digit (Z.to_N (tenths m e mod 10))) as (d & Hd & Dd).
    { pose proof (Z.mod_pos_bound (tenths m e) 10 eq_refl). lia. }
    destruct (str_of_N_digits (Z.to_N (tenths m e / 10))) as [Hw Hne].
    exists (sign_str s), (str_of_N (Z.to_N (tenths m e / 10))), d.
    split.
    + rewrite Hd. rewrite !append_assoc. reflexivity.
    + split; [destruct s; auto|]. auto.
Qed.

(** ** Characters of a report *)

Lemma has_char_none c s :
  is_ascii7 c = false -> all_chars is_ascii7 s = true -> has_char c s = false.
Proof.
  intros Hc Hs. apply not_true_is_false. intros H.
  rewrite (all_chars_has_char _ _ _ Hs H) in Hc. discriminate.
Qed.

Lemma all_chars_str_of_nat n : all_chars is_ascii7 (str_of_nat n) = true.
Proof. apply all_chars_uint0. Qed.

(** A character outside the ASCII range occurs in the opening of a report
    only through its fixed text, its label or its colour. *)
Lemma has_char_header c label color confidence n :
  is_ascii7 c = false ->
  has_char c (analysis_header label color confidence n) =
  has_char c (analysis_header label color 0 0).
Proof.
  intros Hc. unfold analysis_header. rewrite !has_char_app.
  rewrite !(has_char_none c (format_pct1 _) Hc (all_chars_format_pct1 _)).
  rewrite !(has_char_none c (str_of_nat _) Hc (all_chars_str_of_nat _)).
  reflexivity.
Qed.

Lemma str_in_absent c sub s :
  has_char c sub = true -> has_char c s = false -> str_in sub s = false.
Proof.
  intros Hsub Hs. apply not_true_is_false. intros H.
  rewrite (str_in_has_char c sub s H Hsub) in Hs. discriminate.
Qed.

Lemma build_report_first_char best n :
  exists s, build_report best n = String (ascii_of_nat 10) s.
Proof.
  rewrite build_report_unfold. unfold analysis_header.
  eexists. cbn [append]. reflexivity.
Qed.

Lemma error_report_first_char e :
  exists s, error_report e = String (ascii_of_nat 226) s.
Proof. unfold error_report. eexists. cbn [append]. reflexivity. Qed.

Lemma error_report_is_no_report e best n : error_report e <> build_report best n.
Proof.
  destruct (error_report_first_char e) as [s ->].
  destruct (build_report_first_char best n) as [s' ->].
  intros H. injection H as H _. vm_compute in H. discriminate.
Qed.

(** ** The text of a report, written out *)

Lemma build_report_text best n :
  build_report best n =
  "
## 📊 ANALYSIS RESULTS

<div style='background-color: " ++ snd (label_and_color best) ++ "20; padding: 15px; border-radius: 10px; border-left: 4px solid " ++ snd (label_and_color best) ++ ";'>
<h3 style='color: " ++ snd (label_and_color best) ++ "; margin: 0;'>" ++ fst (label_and_color best) ++ "</h3>
</div>

**Confidence Level:** " ++ format_pct1 (score best) ++ "  
**Similar Patterns Found:** " ++ str_of_nat n ++ " matches in our database

### 🔍 ANALYSIS
This content appears **" ++ (if str_in "CREDIBLE" (fst (label_and_color best)) then "credible" else "suspicious") ++ "** based on linguistic patterns and comparison with our database of verified news examples.
" ++ advice (fst (label_and_color best)) ++ "
---

**🎓 Digital Literacy Tip:** Always approach online information with healthy skepticism and verify before sharing.
".
Proof.
  rewrite build_report_unfold. unfold analysis_header, LITERACY_TIP.
  rewrite !append_assoc. reflexivity.
Qed.

Lemma passes_validation_leb text :
  passes_validation text = (10 <=? List.length (strip text))%nat.
Proof.
  destruct (10 <=? List.length (strip text))%nat eqn:E.
  - apply passes_validation_length, Nat.leb_le, E.
  - apply not_true_is_false. intros H.
    apply passes_validation_length, Nat.leb_le in H. congruence.
Qed.

(** ** The digits of a printed number *)

Lemma nat_to_uint_nonnil n : Nat.to_uint n <> Decimal.Nil.
Proof.
  intros H. pose proof (DecimalNat.Unsigned.of_to n) as E. rewrite H in E.
  cbn in E. subst n. discriminate H.
Qed.

Lemma N_to_uint_nonnil n : N.to_uint n <> Decimal.Nil.
Proof.
  intros H. pose proof (DecimalN.Unsigned.of_to n) as E. rewrite H in E.
  cbn in E. subst n. discriminate H.
Qed.

(** Read as a decimal numeral, the printed text gives the number back. *)
Lemma str_of_nat_reads_back n :
  exists d, NilZero.uint_of_string (str_of_nat n) = Some d /\ Nat.of_uint d = n.
Proof.
  exists (Nat.to_uint n). split.
  - apply NilZero.usu, nat_to_uint_nonnil.
  - apply DecimalNat.Unsigned.of_to.
Qed.

Lemma str_of_N_reads_back n :
  exists d, NilZero.uint_of_string (str_of_N n) = Some d /\ N.of_uint d = n.
Proof.
  exists (N.to_uint n). split.
  - apply NilZero.usu, N_to_uint_nonnil.
  - apply DecimalN.Unsigned.of_to.
Qed.

(** ** The value of a printed percentage *)

Section Rounding.

Local Open Scope Z_scope.

Lemma div_half_even_tie a b :
  0 < b -> 2 * Z.abs (b * div_half_even a b - a) = b ->
  Z.even (div_half_even a b) = true.
Proof.
  intros Hb. unfold div_half_even.
  pose proof (Z.div_mod a b ltac:(lia)) as Hdm.
  pose proof (Z.mod_pos_bound a b Hb) as Hr.
  set (q := a / b) in *. set (r := a mod b) in *.
  destruct (Z.ltb_spec (2 * r) b) as [H1|H1].
  - replace (b * q - a) with (- r) by lia. lia.
  - destruct (Z.ltb_spec b (2 * r)) as [H2|H2].
    + replace (b * (q + 1) - a) with (b - r) by lia. lia.
    + destruct (Z.even q) eqn:E; [auto|].
      intros _. rewrite Z.even_add, E. reflexivity.
Qed.

Lemma div_half_even_nonneg a b : 0 <= a -> 0 < b -> 0 <= div_half_even a b.
Proof.
  intros Ha Hb. unfold div_half_even.
  pose proof (Z.div_pos a b Ha Hb).
  destruct (2 * (a mod b) <? b); [lia|].
  destruct (b <? 2 * (a mod b)); [lia|].
  destruct (Z.even (a / b)); lia.
Qed.

(** The number of tenths that is printed: the exact value when it is an
    integer, else the nearest number of tenths, the even one of two equally
    near. *)
Lemma tenths_spec m e :
  0 <= tenths m e /\
  (0 <= e -> tenths m e = 10 * Z.pos m * 2 ^ e) /\
  (e < 0 ->
   2 * Z.abs (2 ^ (- e) * tenths m e - 10 * Z.pos m) <= 2 ^ (- e) /\
   (2 * Z.abs (2 ^ (- e) * tenths m e - 10 * Z.pos m) = 2 ^ (- e) ->
    Z.even (tenths m e) = true)).
Proof.
  unfold tenths. destruct (Z.leb_spec 0 e) as [He|He].
  - split; [|split; [reflexivity|lia]].
    pose proof (Z.pow_nonneg 2 e ltac:(lia)). nia.
  - assert (Hp : 0 < 2 ^ (- e)) by (apply Z.pow_pos_nonneg; lia).
    split; [apply div_half_even_nonneg; lia|].
    split; [lia|]. intros _. split.
    + apply div_half_even_nearest. exact Hp.
    + apply div_half_even_tie. exact Hp.
Qed.

Lemma format_pct1_value x :
  match Prim2SF (x * 100)%float with
  | S754_nan => format_pct1 x = "nan%"
  | S754_infinity s => format_pct1 x = (if s then "-" else "") ++ "inf%"
  | S754_zero s => format_pct1 x = (if s then "-" else "") ++ "0.0%"
  | S754_finite s m e =>
      exists t : Z,
        format_pct1 x
        = (if s then "-" else "") ++ str_of_N (Z.to_N (t / 10)) ++ "."
          ++ str_of_N (Z.to_N (t mod 10)) ++ "%" /\
        0 <= t /\
        (0 <= e -> t = 10 * Z.pos m * 2 ^ e) /\
        (e < 0 ->
         2 * Z.abs (2 ^ (- e) * t - 10 * Z.pos m) <= 2 ^ (- e) /\
         (2 * Z.abs (2 ^ (- e) * t - 10 * Z.pos m) = 2 ^ (- e) -> Z.even t = true))
  end.
Proof.
  unfold format_pct1, format_f1.
  destruct (Prim2SF (x * 100)%float) as [s|s| |s m e].
  - destruct s; reflexivity.
  - destruct s; reflexivity.
  - reflexivity.
  - exists (tenths m e). split; [|apply tenths_spec].
    cbv zeta. unfold sign_str. rewrite !append_assoc. reflexivity.
Qed.

End Rounding.

(** * The claims *)

(** ** Validation (lines 34-38) *)

(** C4. An input that is empty or all white space (its trimmed text is empty)
    gets the message asking for content; an input whose trimmed text has
    between 1 and 9 characters gets the message asking for at least 10
    characters.  In both cases the trace of service calls is empty: neither
    the retriever nor the classifier is called.  Characters are code points,
    white space is that of [str.strip], and the trimmed text is what lies
    between the outer runs of white space. *)
Theorem C4_validation_short_circuits svc text :
  (strip text = [] ->
   run (analyze_news svc text)
   = (Return "❌ Please enter some news content to analyze.", [])) /\
  (Forall (fun c => isspace c = true) text ->
   run (analyze_news svc text)
   = (Return "❌ Please enter some news content to analyze.", [])) /\
  ((0 < List.length (strip text) < 10)%nat ->
   run (analyze_news svc text)
   = (Return "❌ Please provide more substantial news content (at least 10 characters).",
      [])) /\
  (exists before after,
      text = (before ++ strip text ++ after)%list /\
      Forall (fun c => isspace c = true) before /\
      Forall (fun c => isspace c = true) after) /\
  (forall c rest, strip text = c :: rest -> isspace c = false) /\
  (forall init c, strip text = (init ++ [c])%list -> isspace c = false) /\
  (forall before core after,
      text = (before ++ core ++ after)%list ->
      Forall (fun c => isspace c = true) before ->
      Forall (fun c => isspace c = true) after ->
      (forall c rest, core = c :: rest -> isspace c = false) ->
      (forall init c, core = (init ++ [c])%list -> isspace c = false) ->
      strip text = core) /\
  (forall c,
      isspace c = true <->
      (0x9 <= c <= 0xD \/ 0x1C <= c <= 0x20 \/ c = 0x85 \/ c = 0xA0 \/ c = 0x1680 \/
       0x2000 <= c <= 0x200A \/ c = 0x2028 \/ c = 0x2029 \/ c = 0x202F \/
       c = 0x205F \/ c = 0x3000)%N).
Proof.
  split; [apply run_invalid_empty|].
  split.
  { intros H. apply run_invalid_empty, strip_empty_iff, all_whitespace_Forall, H. }
  split; [apply run_invalid_short|].
  split.
  { destruct (strip_decompose text) as (a & b & E & Ha & Hb).
    exists a, b. split; [exact E|].
    split; apply all_whitespace_Forall; assumption. }
  destruct (strip_is_trimmed text) as [T1 T2].
  split; [exact T1|]. split; [exact T2|].
  split; [|apply isspace_spec].
  intros before core after -> Ha Hb C1 C2.
  apply strip_of_decomposition; [| |split; assumption];
    apply all_whitespace_Forall; assumption.
Qed.

Lemma C4_validation_short_circuits_witness :
  run (analyze_news (Sample.svc_ok Sample.result_label1) Sample.unicode_blanks)
    = (Return "❌ Please enter some news content to analyze.", []) /\
  run (analyze_news (Sample.svc_ok Sample.result_label1) Sample.accented_text)
    = (Return "❌ Please provide more substantial news content (at least 10 characters).",
       []) /\
  run (analyze_news (Sample.svc_ok Sample.result_label1) (from_ascii "  too short "))
    = (Return "❌ Please provide more substantial news content (at least 10 characters).",
       []).
Proof.
  split; [|split].
  - apply (proj1 (C4_validation_short_circuits
                    (Sample.svc_ok Sample.result_label1) Sample.unicode_blanks)).
    reflexivity.
  - apply (proj1 (proj2 (proj2 (C4_validation_short_circuits
                    (Sample.svc_ok Sample.result_label1) Sample.accented_text)))).
    split; apply Nat.ltb_lt; reflexivity.
  - apply (proj1 (proj2 (proj2 (C4_validation_short_circuits
                    (Sample.svc_ok Sample.result_label1) (from_ascii "  too short "))))).
    split; apply Nat.ltb_lt; reflexivity.
Defined.

(** ** What is sent to the services (lines 40-45) *)

(** C5, as the code has it.  For an input that passes validation (its
    trimmed text has at least 10 characters) the retriever is called with the
    input as it was given, not trimmed; when it answers, the classifier is
    called with the first 512 characters of that same untrimmed input (all of
    it when it has no more).  An input without white space at its ends is its
    own trimmed text, and is then what both services receive. *)
Theorem C5_forwards_untrimmed_text svc text :
  passes_validation text = true ->
  (exists later, snd (run (analyze_news svc text)) = Retrieve text :: later) /\
  (forall docs, get_relevant_documents svc text = Return docs ->
     snd (run (analyze_news svc text)) = [Retrieve text; Classify (slice_to 512 text)]) /\
  (List.length (slice_to 512 text) = Nat.min 512 (List.length text)) /\
  (exists dropped, text = (slice_to 512 text ++ dropped)%list) /\
  ((List.length text <= 512)%nat -> slice_to 512 text = text) /\
  (strip text = text ->
   forall docs, get_relevant_documents svc text = Return docs ->
     snd (run (analyze_news svc text))
     = [Retrieve (strip text); Classify (slice_to 512 (strip text))]) /\
  (10 <= List.length (strip text))%nat.
Proof.
  intros V.
  assert (Hcalls : forall docs, get_relevant_documents svc text = Return docs ->
            snd (run (analyze_news svc text))
            = [Retrieve text; Classify (slice_to 512 text)]).
  { intros docs Hd. rewrite (run_valid svc text V), Hd.
    destruct (llm svc (slice_to 512 text)); reflexivity. }
  split; [|split; [|split; [|split; [|split; [|split]]]]].
  - rewrite (run_valid svc text V).
    destruct (get_relevant_documents svc text) as [docs|e].
    + destruct (llm svc (slice_to 512 text)); eexists; reflexivity.
    + eexists; reflexivity.
  - exact Hcalls.
  - apply slice_to_length.
  - exists (skipn 512 text). apply slice_to_prefix.
  - apply slice_to_short.
  - intros Hs docs Hd. rewrite Hs. apply (Hcalls docs Hd).
  - apply passes_validation_length. exact V.
Qed.

Lemma C5_forwards_untrimmed_text_witness :
  snd (run (analyze_news (Sample.svc_ok Sample.result_label1) Sample.padded_text))
  = [Retrieve Sample.padded_text; Classify (slice_to 512 Sample.padded_text)] /\
  snd (run (analyze_news (Sample.svc_ok Sample.result_label1) Sample.long_accented_text))
  = [Retrieve Sample.long_accented_text; Classify Sample.long_accented_text].
Proof.
  split.
  - apply (proj1 (proj2 (C5_forwards_untrimmed_text
                           (Sample.svc_ok Sample.result_label1) Sample.padded_text
                           eq_refl)) Sample.docs).
    reflexivity.
  - destruct (C5_forwards_untrimmed_text
                (Sample.svc_ok Sample.result_label1) Sample.long_accented_text eq_refl)
      as (_ & H2 & _ & _ & H5 & _).
    rewrite (H2 Sample.docs eq_refl), H5; [reflexivity|].
    apply Nat.leb_le. reflexivity.
Defined.

(** C5 as the specification states it fails: on an input with blanks at both
    ends, which passes validation, the retriever and the classifier receive
    the blanks too, and not the trimmed text. *)
Lemma C5_counterexample :
  passes_validation Sample.padded_text = true /\
  strip Sample.padded_text = from_ascii "Breaking news: markets rally" /\
  snd (run (analyze_news (Sample.svc_ok Sample.result_label1) Sample.padded_text))
  = [Retrieve (from_ascii "  Breaking news: markets rally  ");
     Classify (from_ascii "  Breaking news: markets rally  ")] /\
  snd (run (analyze_news (Sample.svc_ok Sample.result_label1) Sample.padded_text))
  <> [Retrieve (strip Sample.padded_text);
      Classify (slice_to 512 (strip Sample.padded_text))].
Proof.
  split; [reflexivity|]. split; [reflexivity|]. split; [reflexivity|].
  vm_compute. discriminate.
Qed.

(** ** Failures of the services (lines 40-48 and 107-108) *)

(** C1, as the code has it.  The retriever is called inside the same [try]
    block as everything else: when it raises, the classifier is not called
    and [analyze_news] returns the error text built from the exception; no
    report is rendered. *)
Theorem C1_lookup_error_ends_analysis svc text e :
  passes_validation text = true ->
  get_relevant_documents svc text = Raise e ->
  run (analyze_news svc text) = (Return (error_report e), [Retrieve text]) /\
  classify_calls (snd (run (analyze_news svc text))) = 0 /\
  (forall best n, fst (run (analyze_news svc text)) <> Return (build_report best n)).
Proof.
  intros V He.
  assert (R : run (analyze_news svc text) = (Return (error_report e), [Retrieve text])).
  { rewrite (run_valid svc text V), He. reflexivity. }
  rewrite R. split; [reflexivity|]. split; [reflexivity|].
  intros best n H. cbn [fst] in H. injection H as H.
  exact (error_report_is_no_report e best n H).
Qed.

Lemma C1_lookup_error_ends_analysis_witness :
  run (analyze_news (Sample.svc_index_down Sample.result_label1) Sample.text)
  = (Return (error_report (ServiceError "connection refused")), [Retrieve Sample.text]).
Proof.
  apply (C1_lookup_error_ends_analysis
           (Sample.svc_index_down Sample.result_label1) Sample.text
           (ServiceError "connection refused")); reflexivity.
Defined.

(** C1 as the specification states it fails: with the index unreachable and
    a classifier that answers LABEL_1 at 0.92, the result is the error text,
    not the report of that answer with 0 matches, and the classifier was
    never asked. *)
Lemma C1_counterexample :
  passes_validation Sample.text = true /\
  run (analyze_news (Sample.svc_index_down Sample.result_label1) Sample.text)
  = (Return "❌ Error analyzing content: connection refused

Please try again with different text.",
     [Retrieve (from_ascii "Scientists confirm water on Mars")]) /\
  fst (run (analyze_news (Sample.svc_index_down Sample.result_label1) Sample.text))
  <> Return (build_report (mkEntry "LABEL_1" 0.92) 0).
Proof.
  split; [reflexivity|]. split; [reflexivity|].
  vm_compute. discriminate.
Qed.

(** C8. When the classifier raises (the retriever has answered, or the
    classifier would not have been reached), [analyze_news] returns the error
    text: the fixed opening, the description of the exception, and the
    invitation to try again.  The classifier has been called once, with no
    second attempt, and the text returned is not a report for any entry and
    count. *)
Theorem C8_classifier_error_reported svc text docs e :
  passes_validation text = true ->
  get_relevant_documents svc text = Return docs ->
  llm svc (slice_to 512 text) = Raise e ->
  run (analyze_news svc text)
  = (Return ("❌ Error analyzing content: " ++ str_exn e ++ newline ++ newline
             ++ "Please try again with different text."),
     [Retrieve text; Classify (slice_to 512 text)]) /\
  classify_calls (snd (run (analyze_news svc text))) = 1 /\
  (forall best n, fst (run (analyze_news svc text)) <> Return (build_report best n)).
Proof.
  intros V Hd He.
  assert (R : run (analyze_news svc text)
              = (Return (error_report e), [Retrieve text; Classify (slice_to 512 text)])).
  { rewrite (run_valid svc text V), Hd, He. reflexivity. }
  rewrite R. split; [reflexivity|]. split; [reflexivity|].
  intros best n H. cbn [fst] in H. injection H as H.
  exact (error_report_is_no_report e best n H).
Qed.

Lemma C8_classifier_error_reported_witness :
  fst (run (analyze_news Sample.svc_model_down Sample.text))
  = Return "❌ Error analyzing content: model unavailable

Please try again with different text.".
Proof.
  pose proof (C8_classifier_error_reported Sample.svc_model_down Sample.text
                Sample.docs (ServiceError "model unavailable")
                eq_refl eq_refl eq_refl) as [H _].
  rewrite H. reflexivity.
Defined.

(** ** The selected entry (lines 46-47) *)

(** C3. On a non-empty result whose scores are numbers, [max] returns an
    entry of the result that no entry exceeds, and every entry before it is
    strictly smaller: of several entries with the maximum score it is the
    first.  When every other entry is strictly smaller (the maximum is
    unique), every reordering of the result selects the same entry, hence the
    same label and colour. *)
Theorem C3_selects_first_maximum (result : list Entry) :
  result <> [] -> Forall is_number result ->
  exists best pre post,
    py_max result = Return best /\
    result = (pre ++ best :: post)%list /\
    (forall e, In e result -> (score e <=? score best)%float = true) /\
    (forall e, In e pre -> (score e <? score best)%float = true) /\
    (forall result',
        (forall e, In e (pre ++ post) -> (score e <? score best)%float = true) ->
        Permutation result result' ->
        py_max result' = Return best /\
        (forall b', py_max result' = Return b' ->
                    label_and_color b' = label_and_color best)).
Proof.
  intros Hne Hn.
  destruct (py_max_first_maximum result Hne Hn) as (best & pre & post & Hb & Heq & H1 & H2).
  exists best, pre, post.
  split; [exact Hb|]. split; [exact Heq|].
  split; [apply (py_max_is_maximum result best Hb Hn)|].
  split; [exact H1|].
  intros result' Hu P. rewrite Heq in P.
  pose proof (py_max_permutation pre best post result' P Hu) as Hb'.
  split; [exact Hb'|].
  intros b' E. rewrite Hb' in E. injection E as <-. reflexivity.
Qed.

Lemma C3_selects_first_maximum_witness :
  exists best pre post,
    py_max Sample.result_tie = Return best /\
    Sample.result_tie = (pre ++ best :: post)%list /\
    (forall e, In e Sample.result_tie -> (score e <=? score best)%float = true) /\
    (forall e, In e pre -> (score e <? score best)%float = true) /\
    (forall result',
        (forall e, In e (pre ++ post) -> (score e <? score best)%float = true) ->
        Permutation Sample.result_tie result' ->
        py_max result' = Return best /\
        (forall b', py_max result' = Return b' ->
                    label_and_color b' = label_and_color best)).
Proof.
  apply (C3_selects_first_maximum Sample.result_tie).
  - discriminate.
  - repeat constructor.
Defined.

(** ** Verdict and confidence (lines 46-69) *)

(** C2, as the code has it.  In a run where both services answer, the
    report is built from the entry [max] selects, an entry of the result that
    no entry exceeds.  A label equal to LABEL_1, or containing "real" in any
    letter case, gives the credible headline, the green colour, the word
    "credible" and the best-practices block; a label that is not of this
    kind and is equal to LABEL_0, or contains "fake" in any letter case,
    gives the misleading headline, the red colour, the word "suspicious" and
    the recommendations block.  The confidence shown is the selected score
    printed by [.1%]: the hundredfold of the score rounded to the nearest
    tenth (to the even one of two equally near), as digits, a point, one
    digit and a percent sign.  The two scenarios: LABEL_1 at 0.92 gives the
    credible report with 92.0%, and FAKE at 0.81 gives the misleading report
    with 81.0% and the recommendations, which name fact-checking sites. *)
Theorem C2_verdict_from_best_entry :
  (forall svc text docs result rest best,
      passes_validation text = true ->
      get_relevant_documents svc text = Return docs ->
      llm svc (slice_to 512 text) = Return (result :: rest) ->
      py_max result = Return best ->
      exists headline color word block,
        fst (run (analyze_news svc text))
        = Return ("
## 📊 ANALYSIS RESULTS

<div style='background-color: " ++ color ++ "20; padding: 15px; border-radius: 10px; border-left: 4px solid " ++ color ++ ";'>
<h3 style='color: " ++ color ++ "; margin: 0;'>" ++ headline ++ "</h3>
</div>

**Confidence Level:** " ++ format_pct1 (score best) ++ "  
**Similar Patterns Found:** " ++ str_of_nat (List.length docs) ++ " matches in our database

### 🔍 ANALYSIS
This content appears **" ++ word ++ "** based on linguistic patterns and comparison with our database of verified news examples.
" ++ block ++ "
---

**🎓 Digital Literacy Tip:** Always approach online information with healthy skepticism and verify before sharing.
") /\
        In best result /\
        (Forall is_number result ->
         forall e, In e result -> (score e <=? score best)%float = true) /\
        (label best = "LABEL_1" \/ contains_ignoring_case "real" (label best) ->
         headline = "✅ LIKELY CREDIBLE" /\ color = "#22c55e" /\
         word = "credible" /\ block = BEST_PRACTICES) /\
        (label best <> "LABEL_1" -> ~ contains_ignoring_case "real" (label best) ->
         label best = "LABEL_0" \/ contains_ignoring_case "fake" (label best) ->
         headline = "🚨 POTENTIALLY MISLEADING" /\ color = "#ef4444" /\
         word = "suspicious" /\ block = RECOMMENDATIONS)) /\
  (forall x,
      match Prim2SF (x * 100)%float with
      | S754_nan => format_pct1 x = "nan%"
      | S754_infinity s => format_pct1 x = (if s then "-" else "") ++ "inf%"
      | S754_zero s => format_pct1 x = (if s then "-" else "") ++ "0.0%"
      | S754_finite s m e =>
          exists t : Z,
            format_pct1 x
            = (if s then "-" else "") ++ str_of_N (Z.to_N (t / 10)) ++ "."
              ++ str_of_N (Z.to_N (t mod 10)) ++ "%" /\
            (0 <= t)%Z /\
            (0 <= e -> t = 10 * Z.pos m * 2 ^ e)%Z /\
            (e < 0 ->
             2 * Z.abs (2 ^ (- e) * t - 10 * Z.pos m) <= 2 ^ (- e) /\
             (2 * Z.abs (2 ^ (- e) * t - 10 * Z.pos m) = 2 ^ (- e) ->
              Z.even t = true))%Z
      end) /\
  (forall x, is_nan (x * 100)%float = false -> is_infinity (x * 100)%float = false ->
     exists sign whole d,
       format_pct1 x = sign ++ whole ++ "." ++ String d "%" /\
       (sign = "" \/ sign = "-") /\
       whole <> "" /\ all_chars is_digit whole = true /\ is_digit d = true) /\
  (forall n : N,
     exists d, NilZero.uint_of_string (str_of_N n) = Some d /\ N.of_uint d = n) /\
  (forall n : nat,
     exists d, NilZero.uint_of_string (str_of_nat n) = Some d /\ Nat.of_uint d = n) /\
  (forall svc text docs rest,
      passes_validation text = true ->
      get_relevant_documents svc text = Return docs ->
      llm svc (slice_to 512 text) = Return (Sample.result_label1 :: rest) ->
      fst (run (analyze_news svc text))
      = Return ("
## 📊 ANALYSIS RESULTS

<div style='background-color: #22c55e20; padding: 15px; border-radius: 10px; border-left: 4px solid #22c55e;'>
<h3 style='color: #22c55e; margin: 0;'>✅ LIKELY CREDIBLE</h3>
</div>

**Confidence Level:** 92.0%  
**Similar Patterns Found:** " ++ str_of_nat (List.length docs) ++ " matches in our database

### 🔍 ANALYSIS
This content appears **credible** based on linguistic patterns and comparison with our database of verified news examples.

### 💡 BEST PRACTICES

• **Cross-reference** with multiple reliable sources
• **Check author credentials** and publication history
• **Be aware of potential biases** in the reporting
• **Look for supporting evidence** and citations
• **Consider the tone** - credible news is typically neutral

---

**🎓 Digital Literacy Tip:** Always approach online information with healthy skepticism and verify before sharing.
")) /\
  format_pct1 0.92 = "92.0%" /\
  (forall svc text docs rest,
      passes_validation text = true ->
      get_relevant_documents svc text = Return docs ->
      llm svc (slice_to 512 text) = Return (Sample.result_fake :: rest) ->
      fst (run (analyze_news svc text))
      = Return ("
## 📊 ANALYSIS RESULTS

<div style='background-color: #ef444420; padding: 15px; border-radius: 10px; border-left: 4px solid #ef4444;'>
<h3 style='color: #ef4444; margin: 0;'>🚨 POTENTIALLY MISLEADING</h3>
</div>

**Confidence Level:** 81.0%  
**Similar Patterns Found:** " ++ str_of_nat (List.length docs) ++ " matches in our database

### 🔍 ANALYSIS
This content appears **suspicious** based on linguistic patterns and comparison with our database of verified news examples.

### ⚠️ RECOMMENDATIONS

• **Verify with reputable sources** like AP News, Reuters, or BBC
• **Check the publication date** - old news can be repurposed
• **Look for official statements** from relevant authorities
• **Reverse image search** any accompanying photos
• **Use fact-checking sites** like Snopes or FactCheck.org

---

**🎓 Digital Literacy Tip:** Always approach online information with healthy skepticism and verify before sharing.
")) /\
  format_pct1 0.81 = "81.0%" /\
  str_in "fact-checking" RECOMMENDATIONS = true.
Proof.
  split; [|split; [|split; [|split; [|split; [|split; [|split; [|split; [|split]]]]]]]].
  - intros svc text docs result rest best V Hd Hl Hb.
    exists (fst (label_and_color best)), (snd (label_and_color best)),
           (if str_in "CREDIBLE" (fst (label_and_color best))
            then "credible" else "suspicious"),
           (advice (fst (label_and_color best))).
    split.
    { rewrite (run_success svc text docs result rest best V Hd Hl Hb).
      cbn [fst]. rewrite build_report_text. reflexivity. }
    split; [apply (py_max_in result best Hb)|].
    split; [intros Hn; apply (py_max_is_maximum result best Hb Hn)|].
    split.
    + intros H. rewrite (label_and_color_first best H). repeat split; reflexivity.
    + intros N1 N2 H. rewrite (label_and_color_second best N1 N2 H).
      repeat split; reflexivity.
  - apply format_pct1_value.
  - apply format_pct1_shape.
  - apply str_of_N_reads_back.
  - apply str_of_nat_reads_back.
  - intros svc text docs rest V Hd Hl.
    rewrite (run_success svc text docs _ rest (mkEntry "LABEL_1" 0.92) V Hd Hl eq_refl).
    cbn [fst]. rewrite build_report_text. reflexivity.
  - reflexivity.
  - intros svc text docs rest V Hd Hl.
    rewrite (run_success svc text docs _ rest (mkEntry "FAKE" 0.81) V Hd Hl eq_refl).
    cbn [fst]. rewrite build_report_text. reflexivity.
  - reflexivity.
  - reflexivity.
Qed.

Lemma C2_verdict_from_best_entry_witness :
  fst (run (analyze_news (Sample.svc_ok Sample.result_label1) Sample.text))
  = Return "
## 📊 ANALYSIS RESULTS

<div style='background-color: #22c55e20; padding: 15px; border-radius: 10px; border-left: 4px solid #22c55e;'>
<h3 style='color: #22c55e; margin: 0;'>✅ LIKELY CREDIBLE</h3>
</div>

**Confidence Level:** 92.0%  
**Similar Patterns Found:** 3 matches in our database

### 🔍 ANALYSIS
This content appears **credible** based on linguistic patterns and comparison with our database of verified news examples.

### 💡 BEST PRACTICES

• **Cross-reference** with multiple reliable sources
• **Check author credentials** and publication history
• **Be aware of potential biases** in the reporting
• **Look for supporting evidence** and citations
• **Consider the tone** - credible news is typically neutral

---

**🎓 Digital Literacy Tip:** Always approach online information with healthy skepticism and verify before sharing.
" /\
  fst (run (analyze_news (Sample.svc_ok Sample.result_fake) Sample.text))
  = Return "
## 📊 ANALYSIS RESULTS

<div style='background-color: #ef444420; padding: 15px; border-radius: 10px; border-left: 4px solid #ef4444;'>
<h3 style='color: #ef4444; margin: 0;'>🚨 POTENTIALLY MISLEADING</h3>
</div>

**Confidence Level:** 81.0%  
**Similar Patterns Found:** 3 matches in our database

### 🔍 ANALYSIS
This content appears **suspicious** based on linguistic patterns and comparison with our database of verified news examples.

### ⚠️ RECOMMENDATIONS

• **Verify with reputable sources** like AP News, Reuters, or BBC
• **Check the publication date** - old news can be repurposed
• **Look for official statements** from relevant authorities
• **Reverse image search** any accompanying photos
• **Use fact-checking sites** like Snopes or FactCheck.org

---

**🎓 Digital Literacy Tip:** Always approach online information with healthy skepticism and verify before sharing.
".
Proof.
  destruct C2_verdict_from_best_entry as (_ & _ & _ & _ & _ & H1 & _ & H2 & _).
  split.
  - rewrite (H1 (Sample.svc_ok Sample.result_label1) Sample.text Sample.docs []
               eq_refl eq_refl eq_refl).
    reflexivity.
  - rewrite (H2 (Sample.svc_ok Sample.result_fake) Sample.text Sample.docs []
               eq_refl eq_refl eq_refl).
    reflexivity.
Defined.

(** C2 as the specification states it fails on a label that contains both
    words: REAL_OR_FAKE contains "fake", and the run gives the credible
    report, since the test for "real" comes first. *)
Lemma C2_counterexample :
  str_in "FAKE" (upper "REAL_OR_FAKE") = true /\
  contains_ignoring_case "fake" "REAL_OR_FAKE" /\
  fst (run (analyze_news (Sample.svc_ok [mkEntry "REAL_OR_FAKE" 0.75]) Sample.text))
  = Return "
## 📊 ANALYSIS RESULTS

<div style='background-color: #22c55e20; padding: 15px; border-radius: 10px; border-left: 4px solid #22c55e;'>
<h3 style='color: #22c55e; margin: 0;'>✅ LIKELY CREDIBLE</h3>
</div>

**Confidence Level:** 75.0%  
**Similar Patterns Found:** 3 matches in our database

### 🔍 ANALYSIS
This content appears **credible** based on linguistic patterns and comparison with our database of verified news examples.

### 💡 BEST PRACTICES

• **Cross-reference** with multiple reliable sources
• **Check author credentials** and publication history
• **Be aware of potential biases** in the reporting
• **Look for supporting evidence** and citations
• **Consider the tone** - credible news is typically neutral

---

**🎓 Digital Literacy Tip:** Always approach online information with healthy skepticism and verify before sharing.
" /\
  fst (label_and_color (mkEntry "REAL_OR_FAKE" 0.75)) <> "🚨 POTENTIALLY MISLEADING".
Proof.
  split; [reflexivity|].
  split; [exists "REAL_OR_", "FAKE", ""; split; reflexivity|].
  split; [reflexivity|].
  vm_compute. discriminate.
Qed.

(** ** Labels outside the two vocabularies (lines 56-59) *)




(** ** Headline and advice (lines 50-59 and 77-96) *)

(** C7, as the code has it.  The headline of a report is one of four fixed
    texts, two on each side: LIKELY CREDIBLE or CREDIBLE, followed by the
    best-practices block, and POTENTIALLY MISLEADING or SUSPICIOUS, followed
    by the recommendations block.  The two blocks differ. *)
Theorem C7_headline_and_advice svc text docs result rest best :
  passes_validation text = true ->
  get_relevant_documents svc text = Return docs ->
  llm svc (slice_to 512 text) = Return (result :: rest) ->
  py_max result = Return best ->
  exists headline color,
    fst (run (analyze_news svc text))
    = Return (analysis_header headline color (score best) (List.length docs)
              ++ advice headline ++ LITERACY_TIP) /\
    (((headline = "✅ LIKELY CREDIBLE" \/ headline = "✅ CREDIBLE")
      /\ advice headline = BEST_PRACTICES) \/
     ((headline = "🚨 POTENTIALLY MISLEADING" \/ headline = "🚨 SUSPICIOUS")
      /\ advice headline = RECOMMENDATIONS)) /\
    RECOMMENDATIONS <> BEST_PRACTICES.
Proof.
  intros V Hd Hl Hb.
  exists (fst (label_and_color best)), (snd (label_and_color best)).
  split.
  { rewrite (run_success svc text docs result rest best V Hd Hl Hb).
    cbn [fst]. rewrite build_report_unfold. reflexivity. }
  split; [|discriminate].
  destruct (label_and_color_cases best) as [E|[E|[E|E]]]; rewrite E; cbn [fst].
  - left. split; [left|]; reflexivity.
  - right. split; [left|]; reflexivity.
  - left. split; [right|]; reflexivity.
  - right. split; [right|]; reflexivity.
Qed.

Lemma C7_headline_and_advice_witness :
  exists headline color,
    fst (run (analyze_news (Sample.svc_ok [mkEntry "POSITIVE" 0.75]) Sample.text))
    = Return (analysis_header headline color 0.75 3
              ++ advice headline ++ LITERACY_TIP) /\
    (((headline = "✅ LIKELY CREDIBLE" \/ headline = "✅ CREDIBLE")
      /\ advice headline = BEST_PRACTICES) \/
     ((headline = "🚨 POTENTIALLY MISLEADING" \/ headline = "🚨 SUSPICIOUS")
      /\ advice headline = RECOMMENDATIONS)) /\
    RECOMMENDATIONS <> BEST_PRACTICES.
Proof.
  apply (C7_headline_and_advice
           (Sample.svc_ok [mkEntry "POSITIVE" 0.75]) Sample.text Sample.docs
           [mkEntry "POSITIVE" 0.75] [] (mkEntry "POSITIVE" 0.75));
    reflexivity.
Defined.

(** C7 as the specification states it fails: the labels LABEL_1 and POSITIVE
    both lead to the best-practices block, with two different headlines, and
    LABEL_0 leads to a third headline; so no two texts cover the headlines. *)
Lemma C7_counterexample :
  fst (run (analyze_news (Sample.svc_ok [mkEntry "LABEL_1" 0.75]) Sample.text))
  = Return (analysis_header "✅ LIKELY CREDIBLE" "#22c55e" 0.75 3
            ++ BEST_PRACTICES ++ LITERACY_TIP) /\
  fst (run (analyze_news (Sample.svc_ok [mkEntry "POSITIVE" 0.75]) Sample.text))
  = Return (analysis_header "✅ CREDIBLE" "#22c55e" 0.75 3
            ++ BEST_PRACTICES ++ LITERACY_TIP) /\
  ~ (exists one other : string,
       forall best, fst (label_and_color best) = one
                    \/ fst (label_and_color best) = other).
Proof.
  split; [reflexivity|]. split; [reflexivity|].
  intros (one & other & H).
  pose proof (H (mkEntry "LABEL_1" 0)) as H1.
  pose proof (H (mkEntry "LABEL_0" 0)) as H0.
  pose proof (H (mkEntry "POSITIVE" 0)) as Hp.
  vm_compute in H1, H0, Hp.
  destruct H1 as [H1|H1], H0 as [H0|H0], Hp as [Hp|Hp];
    rewrite <- ?H1, <- ?H0, <- ?Hp in *; discriminate.
Qed.

(** ** The report as a function of its inputs (lines 62-105) *)

(** C9. Two runs, on any texts that pass validation and with any services,
    return the same text, character for character, as soon as the classifier
    answered with the same result and the retriever with the same number of
    documents: the report reads nothing but the selected entry and that
    number.  It suffices that the two results select the same entry. *)
Theorem C9_report_is_deterministic
    svc1 svc2 text1 text2 docs1 docs2 result1 result2 rest1 rest2 :
  passes_validation text1 = true ->
  passes_validation text2 = true ->
  get_relevant_documents svc1 text1 = Return docs1 ->
  get_relevant_documents svc2 text2 = Return docs2 ->
  llm svc1 (slice_to 512 text1) = Return (result1 :: rest1) ->
  llm svc2 (slice_to 512 text2) = Return (result2 :: rest2) ->
  py_max result1 = py_max result2 ->
  List.length docs1 = List.length docs2 ->
  fst (run (analyze_news svc1 text1)) = fst (run (analyze_news svc2 text2)).
Proof.
  intros V1 V2 Hd1 Hd2 Hl1 Hl2 Hb Hn.
  rewrite (run_valid svc1 text1 V1), Hd1, Hl1.
  rewrite (run_valid svc2 text2 V2), Hd2, Hl2.
  cbn [fst]. unfold after_calls. cbn [index0].
  rewrite Hb, Hn. reflexivity.
Qed.

Lemma C9_report_is_deterministic_witness :
  fst (run (analyze_news (Sample.svc_ok Sample.result_fake) Sample.text))
  = fst (run (analyze_news
                (mkServices (fun _ => Return [mkDocument "x"; mkDocument "y"; mkDocument "z"])
                            (fun _ => Return [Sample.result_fake; Sample.result_tie]))
                Sample.padded_text)).
Proof.
  apply (C9_report_is_deterministic
           (Sample.svc_ok Sample.result_fake) _ Sample.text Sample.padded_text
           Sample.docs [mkDocument "x"; mkDocument "y"; mkDocument "z"]
           Sample.result_fake Sample.result_fake [] [Sample.result_tie]);
    reflexivity.
Defined.

(** ** Advice block and footer (lines 77-103) *)

(** C10. A report contains one advice block and not the other: the
    recommendations when its headline contains MISLEADING or SUSPICIOUS, the
    best practices otherwise.  It ends with the digital-literacy tip.  The
    texts of the tip and of the two blocks are those of lines 78-103. *)
Theorem C10_one_advice_block_and_footer svc text docs result rest best :
  passes_validation text = true ->
  get_relevant_documents svc text = Return docs ->
  llm svc (slice_to 512 text) = Return (result :: rest) ->
  py_max result = Return best ->
  exists report headline color,
    fst (run (analyze_news svc text)) = Return report /\
    label_and_color best = (headline, color) /\
    (str_in RECOMMENDATIONS report = true <->
     str_in "MISLEADING" headline = true \/ str_in "SUSPICIOUS" headline = true) /\
    (str_in BEST_PRACTICES report = true <-> str_in RECOMMENDATIONS report = false) /\
    (exists body, report = body ++ LITERACY_TIP) /\
    (exists body,
        report = body ++ "
---

**🎓 Digital Literacy Tip:** Always approach online information with healthy skepticism and verify before sharing.
") /\
    RECOMMENDATIONS = "
### ⚠️ RECOMMENDATIONS

• **Verify with reputable sources** like AP News, Reuters, or BBC
• **Check the publication date** - old news can be repurposed
• **Look for official statements** from relevant authorities
• **Reverse image search** any accompanying photos
• **Use fact-checking sites** like Snopes or FactCheck.org
" /\
    BEST_PRACTICES = "
### 💡 BEST PRACTICES

• **Cross-reference** with multiple reliable sources
• **Check author credentials** and publication history
• **Be aware of potential biases** in the reporting
• **Look for supporting evidence** and citations
• **Consider the tone** - credible news is typically neutral
".
Proof.
  intros V Hd Hl Hb.
  exists (build_report best (List.length docs)),
         (fst (label_and_color best)), (snd (label_and_color best)).
  split; [rewrite (run_success svc text docs result rest best V Hd Hl Hb); reflexivity|].
  split; [destruct (label_and_color best); reflexivity|].
  rewrite build_report_unfold.
  set (n := List.length docs). set (x := score best).
  assert (Hw : forall l c,
             str_in RECOMMENDATIONS (analysis_header l c x n ++ RECOMMENDATIONS ++ LITERACY_TIP)
             = true) by (intros; apply str_in_app).
  assert (Hb' : forall l c,
             str_in BEST_PRACTICES (analysis_header l c x n ++ BEST_PRACTICES ++ LITERACY_TIP)
             = true) by (intros; apply str_in_app).
  assert (Hnb : forall l c,
             has_char (ascii_of_nat 146) (analysis_header l c 0 0) = false ->
             str_in BEST_PRACTICES (analysis_header l c x n ++ RECOMMENDATIONS ++ LITERACY_TIP)
             = false).
  { intros l c H. apply (str_in_absent (ascii_of_nat 146)); [reflexivity|].
    rewrite !has_char_app, has_char_header, H by reflexivity. reflexivity. }
  assert (Hnw : forall l c,
             has_char (ascii_of_nat 239) (analysis_header l c 0 0) = false ->
             str_in RECOMMENDATIONS (analysis_header l c x n ++ BEST_PRACTICES ++ LITERACY_TIP)
             = false).
  { intros l c H. apply (str_in_absent (ascii_of_nat 239)); [reflexivity|].
    rewrite !has_char_app, has_char_header, H by reflexivity. reflexivity. }
  split; [|split].
  - destruct (label_and_color_cases best) as [E|[E|[E|E]]]; rewrite E; cbn [fst snd].
    + change (advice "✅ LIKELY CREDIBLE") with BEST_PRACTICES.
      rewrite Hnw by reflexivity. split; [discriminate|].
      intros [C|C]; vm_compute in C; discriminate.
    + change (advice "🚨 POTENTIALLY MISLEADING") with RECOMMENDATIONS.
      rewrite Hw. split; [left|]; reflexivity.
    + change (advice "✅ CREDIBLE") with BEST_PRACTICES.
      rewrite Hnw by reflexivity. split; [discriminate|].
      intros [C|C]; vm_compute in C; discriminate.
    + change (advice "🚨 SUSPICIOUS") with RECOMMENDATIONS.
      rewrite Hw. split; [right|]; reflexivity.
  - destruct (label_and_color_cases best) as [E|[E|[E|E]]]; rewrite E; cbn [fst snd].
    + change (advice "✅ LIKELY CREDIBLE") with BEST_PRACTICES.
      rewrite Hb', Hnw by reflexivity. split; reflexivity.
    + change (advice "🚨 POTENTIALLY MISLEADING") with RECOMMENDATIONS.
      rewrite Hw, Hnb by reflexivity. split; discriminate.
    + change (advice "✅ CREDIBLE") with BEST_PRACTICES.
      rewrite Hb', Hnw by reflexivity. split; reflexivity.
    + change (advice "🚨 SUSPICIOUS") with RECOMMENDATIONS.
      rewrite Hw, Hnb by reflexivity. split; discriminate.
  - split; [eexists; rewrite <- append_assoc; reflexivity|].
    split; [eexists; rewrite <- append_assoc; reflexivity|].
    split; reflexivity.
Qed.

Lemma C10_one_advice_block_and_footer_witness :
  exists report headline color,
    fst (run (analyze_news (Sample.svc_ok Sample.result_fake) Sample.text))
    = Return report /\
    label_and_color (mkEntry "FAKE" 0.81) = (headline, color) /\
    (str_in RECOMMENDATIONS report = true <->
     str_in "MISLEADING" headline = true \/ str_in "SUSPICIOUS" headline = true) /\
    (str_in BEST_PRACTICES report = true <-> str_in RECOMMENDATIONS report = false) /\
    (exists body, report = body ++ LITERACY_TIP) /\
    (exists body,
        report = body ++ "
---

**🎓 Digital Literacy Tip:** Always approach online information with healthy skepticism and verify before sharing.
") /\
    RECOMMENDATIONS = "
### ⚠️ RECOMMENDATIONS

• **Verify with reputable sources** like AP News, Reuters, or BBC
• **Check the publication date** - old news can be repurposed
• **Look for official statements** from relevant authorities
• **Reverse image search** any accompanying photos
• **Use fact-checking sites** like Snopes or FactCheck.org
" /\
    BEST_PRACTICES = "
### 💡 BEST PRACTICES

• **Cross-reference** with multiple reliable sources
• **Check author credentials** and publication history
• **Be aware of potential biases** in the reporting
• **Look for supporting evidence** and citations
• **Consider the tone** - credible news is typically neutral
".
Proof.
  apply (C10_one_advice_block_and_footer
           (Sample.svc_ok Sample.result_fake) Sample.text Sample.docs
           Sample.result_fake [] (mkEntry "FAKE" 0.81));
    reflexivity.
Defined.

(** * Further properties of [analyze_news] *)

(** ** Auxiliary facts *)

Lemma run_invalid svc text :
  passes_validation text = false ->
  run (analyze_news svc text) = (Return MSG_EMPTY, []) \/
  run (analyze_news svc text) = (Return MSG_TOO_SHORT, []).
Proof.
  intros V. unfold passes_validation in V. unfold run, analyze_news.
  destruct (truthy (strip text)); [|left; reflexivity].
  cbn [negb andb] in *. apply negb_false_iff in V. rewrite V.
  right. reflexivity.
Qed.

Lemma messages_are_no_report best n :
  MSG_EMPTY <> build_report best n /\ MSG_TOO_SHORT <> build_report best n.
Proof.
  destruct (build_report_first_char best n) as [s ->].
  split; intros H; vm_compute in H; discriminate.
Qed.

Lemma py_max_nonempty result : result <> [] -> exists best, py_max result = Return best.
Proof.
  destruct result as [|first rest]; [congruence|].
  intros _. eexists. reflexivity.
Qed.

(** ** NaN scores *)

Lemma ltb_nan_l x y : is_nan x = true -> (x <? y)%float = false.
Proof.
  intros H. rewrite ltb_spec, (Prim2SF_nan x H). reflexivity.
Qed.

Lemma ltb_true_number x y : (x <? y)%float = true -> is_nan y = false.
Proof.
  intros H. destruct (is_nan y) eqn:E; [|reflexivity].
  rewrite ltb_spec, (Prim2SF_nan y E), SFltb_nan_r in H. discriminate.
Qed.

Lemma max_from_nan first rest : is_nan (score first) = true -> max_from first rest = first.
Proof.
  intros H. induction rest as [|e rest IH]; [reflexivity|].
  cbn [max_from]. rewrite (ltb_nan_l _ _ H). exact IH.
Qed.

Lemma max_from_first_or_number rest :
  forall first, max_from first rest = first \/ is_nan (score (max_from first rest)) = false.
Proof.
  induction rest as [|e rest IH]; intros first; [left; reflexivity|].
  cbn [max_from]. destruct (score first <? score e)%float eqn:E.
  - right. destruct (IH e) as [->|H]; [|exact H].
    apply (ltb_true_number _ _ E).
  - apply IH.
Qed.

Lemma format_pct1_nan x : is_nan x = true -> format_pct1 x = "nan%".
Proof.
  intros H. unfold format_pct1, format_f1.
  rewrite mul_spec, (Prim2SF_nan x H). reflexivity.
Qed.

(** ** What [analyze_news] returns and whom it calls *)

(** X2. A report is returned exactly when the trimmed input has at least 10
    characters, the retriever answers, and the classifier answers with a list
    whose first element is a non-empty list of entries (each with its label
    and score); in every other case the text returned is not a report. *)
Theorem report_iff_services_answer svc text :
  (exists best n, fst (run (analyze_news svc text)) = Return (build_report best n)) <->
  ((10 <= List.length (strip text))%nat /\
   exists docs result rest,
     get_relevant_documents svc text = Return docs /\
     llm svc (slice_to 512 text) = Return (result :: rest) /\
     result <> []).
Proof.
  rewrite <- passes_validation_length. split.
  - intros (best & n & H).
    destruct (passes_validation text) eqn:V.
    + split; [reflexivity|]. rewrite (run_valid svc text V) in H.
      destruct (get_relevant_documents svc text) as [docs|e].
      2: { cbn [fst] in H. injection H as H.
           destruct (error_report_is_no_report _ _ _ H). }
      destruct (llm svc (slice_to 512 text)) as [results|e].
      2: { cbn [fst] in H. injection H as H.
           destruct (error_report_is_no_report _ _ _ H). }
      cbn [fst] in H. unfold after_calls in H.
      destruct results as [|result rest]; cbn [index0 recover] in H.
      { injection H as H. destruct (error_report_is_no_report _ _ _ H). }
      destruct result as [|first others]; cbn [py_max recover] in H.
      { injection H as H. destruct (error_report_is_no_report _ _ _ H). }
      exists docs, (first :: others), rest.
      split; [reflexivity|]. split; [reflexivity|discriminate].
    + destruct (messages_are_no_report best n) as [N1 N2].
      destruct (run_invalid svc text V) as [R|R]; rewrite R in H;
        cbn [fst] in H; injection H as H; contradiction.
  - intros (V & docs & result & rest & Hd & Hl & Hne).
    destruct (py_max_nonempty result Hne) as [best Hb].
    exists best, (List.length docs).
    rewrite (run_success svc text docs result rest best V Hd Hl Hb). reflexivity.
Qed.

(** X3. The calls [analyze_news] issues: none when the trimmed input has
    fewer than 10 characters; otherwise the retriever once, with the input as
    given, and then, only if the retriever answered, the classifier once,
    with the first 512 characters of the input (all of it when it has no
    more).  Nothing the classifier answers or raises leads to another call. *)
Theorem service_calls svc text :
  snd (run (analyze_news svc text)) =
  (if (10 <=? List.length (strip text))%nat then
     match get_relevant_documents svc text with
     | Return _ => [Retrieve text; Classify (slice_to 512 text)]
     | Raise _ => [Retrieve text]
     end
   else []) /\
  (classify_calls (snd (run (analyze_news svc text))) <= 1)%nat /\
  (List.length (snd (run (analyze_news svc text))) <= 2)%nat /\
  List.length (slice_to 512 text) = Nat.min 512 (List.length text) /\
  (exists dropped, text = (slice_to 512 text ++ dropped)%list).
Proof.
  assert (E : snd (run (analyze_news svc text)) =
              (if (10 <=? List.length (strip text))%nat then
                 match get_relevant_documents svc text with
                 | Return _ => [Retrieve text; Classify (slice_to 512 text)]
                 | Raise _ => [Retrieve text]
                 end
               else [])).
  { rewrite <- passes_validation_leb. destruct (passes_validation text) eqn:V.
    - rewrite (run_valid svc text V).
      destruct (get_relevant_documents svc text); [|reflexivity].
      destruct (llm svc (slice_to 512 text)); reflexivity.
    - destruct (run_invalid svc text V) as [R|R]; rewrite R; reflexivity. }
  split; [exact E|]. rewrite E.
  split; [|split; [|split]].
  - destruct (10 <=? List.length (strip text))%nat; [|cbn; lia].
    destruct (get_relevant_documents svc text); cbn; lia.
  - destruct (10 <=? List.length (strip text))%nat; [|cbn; lia].
    destruct (get_relevant_documents svc text); cbn; lia.
  - apply slice_to_length.
  - exists (skipn 512 text). apply slice_to_prefix.
Qed.

(** X4. A classifier that answers with an empty list, or with a list whose
    first element is empty, gets the error text of the failed indexing or of
    the failed [max]; both services have been called and no report is
    returned. *)
Theorem empty_classification_is_an_error svc text docs :
  passes_validation text = true ->
  get_relevant_documents svc text = Return docs ->
  (llm svc (slice_to 512 text) = Return [] ->
   run (analyze_news svc text)
   = (Return (error_report IndexError),
      [Retrieve text; Classify (slice_to 512 text)])) /\
  (forall rest, llm svc (slice_to 512 text) = Return ([] :: rest) ->
   run (analyze_news svc text)
   = (Return (error_report ValueError_max),
      [Retrieve text; Classify (slice_to 512 text)])).
Proof.
  intros V Hd. split.
  - intros Hl. rewrite (run_valid svc text V), Hd, Hl. reflexivity.
  - intros rest Hl. rewrite (run_valid svc text V), Hd, Hl. reflexivity.
Qed.

Lemma empty_classification_is_an_error_witness :
  fst (run (analyze_news (mkServices (fun _ => Return Sample.docs) (fun _ => Return []))
                         Sample.text))
  = Return "❌ Error analyzing content: list index out of range

Please try again with different text.".
Proof.
  pose proof (empty_classification_is_an_error
                (mkServices (fun _ => Return Sample.docs) (fun _ => Return []))
                Sample.text Sample.docs eq_refl eq_refl) as [H _].
  rewrite (H eq_refl). reflexivity.
Defined.

(** X5. The places of a report that tell the verdict always agree: a green
    colour comes with a headline containing CREDIBLE, the word "credible" in
    the sentence of the analysis and the best-practices block; a red colour
    with a headline without CREDIBLE, the word "suspicious" and the
    recommendations block. *)
Theorem report_wording_is_consistent svc text docs result rest best :
  passes_validation text = true ->
  get_relevant_documents svc text = Return docs ->
  llm svc (slice_to 512 text) = Return (result :: rest) ->
  py_max result = Return best ->
  exists headline color word block,
    fst (run (analyze_news svc text))
    = Return ("
## 📊 ANALYSIS RESULTS

<div style='background-color: " ++ color ++ "20; padding: 15px; border-radius: 10px; border-left: 4px solid " ++ color ++ ";'>
<h3 style='color: " ++ color ++ "; margin: 0;'>" ++ headline ++ "</h3>
</div>

**Confidence Level:** " ++ format_pct1 (score best) ++ "  
**Similar Patterns Found:** " ++ str_of_nat (List.length docs) ++ " matches in our database

### 🔍 ANALYSIS
This content appears **" ++ word ++ "** based on linguistic patterns and comparison with our database of verified news examples.
" ++ block ++ "
---

**🎓 Digital Literacy Tip:** Always approach online information with healthy skepticism and verify before sharing.
") /\
    ((color = "#22c55e" /\ str_in "CREDIBLE" headline = true /\
      word = "credible" /\ is_warning headline = false /\
      block = BEST_PRACTICES) \/
     (color = "#ef4444" /\ str_in "CREDIBLE" headline = false /\
      word = "suspicious" /\ is_warning headline = true /\
      block = RECOMMENDATIONS)).
Proof.
  intros V Hd Hl Hb.
  exists (fst (label_and_color best)), (snd (label_and_color best)),
         (if str_in "CREDIBLE" (fst (label_and_color best))
          then "credible" else "suspicious"),
         (advice (fst (label_and_color best))).
  split.
  { rewrite (run_success svc text docs result rest best V Hd Hl Hb).
    cbn [fst]. rewrite build_report_text. reflexivity. }
  destruct (label_and_color_cases best) as [E|[E|[E|E]]]; rewrite E; cbn [fst snd].
  - left. repeat split; reflexivity.
  - right. repeat split; reflexivity.
  - left. repeat split; reflexivity.
  - right. repeat split; reflexivity.
Qed.

Lemma report_wording_is_consistent_witness :
  exists headline color word block,
    fst (run (analyze_news (Sample.svc_ok Sample.result_tie) Sample.text))
    = Return ("
## 📊 ANALYSIS RESULTS

<div style='background-color: " ++ color ++ "20; padding: 15px; border-radius: 10px; border-left: 4px solid " ++ color ++ ";'>
<h3 style='color: " ++ color ++ "; margin: 0;'>" ++ headline ++ "</h3>
</div>

**Confidence Level:** " ++ "50.0%" ++ "  
**Similar Patterns Found:** " ++ "3" ++ " matches in our database

### 🔍 ANALYSIS
This content appears **" ++ word ++ "** based on linguistic patterns and comparison with our database of verified news examples.
" ++ block ++ "
---

**🎓 Digital Literacy Tip:** Always approach online information with healthy skepticism and verify before sharing.
") /\
    ((color = "#22c55e" /\ str_in "CREDIBLE" headline = true /\
      word = "credible" /\ is_warning headline = false /\
      block = BEST_PRACTICES) \/
     (color = "#ef4444" /\ str_in "CREDIBLE" headline = false /\
      word = "suspicious" /\ is_warning headline = true /\
      block = RECOMMENDATIONS)).
Proof.
  destruct (report_wording_is_consistent
              (Sample.svc_ok Sample.result_tie) Sample.text Sample.docs
              Sample.result_tie [] (mkEntry "FAKE" 0.5)
              eq_refl eq_refl eq_refl eq_refl)
    as (headline & color & word & block & H & C).
  exists headline, color, word, block. split; [exact H|exact C].
Defined.

(** X6. White space around an input does not count for validation, be it
    ASCII blanks or the other white space of Unicode: padding an input on
    either side leaves its trimmed text unchanged; an input whose trimmed
    text has fewer than 10 characters gets the same message as without the
    padding, still without any call, and one with at least 10 still passes. *)
Theorem validation_ignores_outer_whitespace svc a text b :
  Forall (fun c => isspace c = true) a ->
  Forall (fun c => isspace c = true) b ->
  strip (a ++ text ++ b)%list = strip text /\
  ((List.length (strip text) < 10)%nat ->
   run (analyze_news svc (a ++ text ++ b)%list) = run (analyze_news svc text) /\
   snd (run (analyze_news svc (a ++ text ++ b)%list)) = []) /\
  ((10 <= List.length (strip text))%nat ->
   passes_validation (a ++ text ++ b)%list = true).
Proof.
  intros Ha Hb. apply all_whitespace_Forall in Ha, Hb.
  assert (E : strip (a ++ text ++ b)%list = strip text)
    by (apply strip_padding; assumption).
  split; [exact E|]. split.
  - intros L.
    assert (V : passes_validation text = false).
    { rewrite passes_validation_leb. apply Nat.leb_gt. exact L. }
    assert (R : run (analyze_news svc (a ++ text ++ b)%list)
                = run (analyze_news svc text)).
    { unfold run, analyze_news. rewrite E.
      destruct (truthy (strip text)); [|reflexivity]. cbn [negb].
      unfold len. apply Nat.ltb_lt in L. rewrite L. reflexivity. }
    split; [exact R|]. rewrite R.
    destruct (run_invalid svc text V) as [R0|R0]; rewrite R0; reflexivity.
  - intros L. apply passes_validation_length. rewrite E. exact L.
Qed.

Lemma validation_ignores_outer_whitespace_witness :
  run (analyze_news (Sample.svc_ok Sample.result_fake)
                    ([0xA0%N] ++ from_ascii "too short" ++ [0x3000%N])%list)
  = run (analyze_news (Sample.svc_ok Sample.result_fake) (from_ascii "too short")).
Proof.
  refine (proj1 (proj1 (proj2 (validation_ignores_outer_whitespace
                          (Sample.svc_ok Sample.result_fake)
                          [0xA0%N] (from_ascii "too short") [0x3000%N] _ _)) _)).
  - repeat constructor.
  - repeat constructor.
  - apply Nat.ltb_lt. reflexivity.
Defined.

(** X7. [max] replaces the running maximum only by a strictly greater score,
    and no comparison with a NaN holds: a NaN score in first position is
    selected whatever the other scores are, and is printed as [nan%]; an
    entry in a later position is selected only if its score is a number. *)
Theorem nan_scores_and_max first rest :
  (is_nan (score first) = true ->
   py_max (first :: rest) = Return first /\ format_pct1 (score first) = "nan%") /\
  (forall best, py_max (first :: rest) = Return best ->
                best = first \/ is_nan (score best) = false).
Proof.
  split.
  - intros H. split.
    + cbn [py_max]. rewrite (max_from_nan first rest H). reflexivity.
    + apply format_pct1_nan. exact H.
  - intros best H. cbn [py_max] in H. injection H as <-.
    apply max_from_first_or_number.
Qed.

Lemma nan_scores_and_max_witness :
  py_max [mkEntry "FAKE" nan; mkEntry "REAL" 0.92] = Return (mkEntry "FAKE" nan) /\
  format_pct1 nan = "nan%".
Proof.
  apply (proj1 (nan_scores_and_max (mkEntry "FAKE" nan) [mkEntry "REAL" 0.92])).
  reflexivity.
Defined.

(** * Loading the module *)

Section Loading.

Import Startup.
Context {Embeddings VectorStore : Type}.
Variable ld : Loaders Embeddings VectorStore.

Lemma module_load_eq :
  module_load ld unloaded =
  match HuggingFaceEmbeddings ld EMBEDDING_MODEL with
  | Raise e => after_failure ld e None [LINE_LOADING]
  | Return embeddings =>
      match Chroma ld PERSIST_DIRECTORY embeddings with
      | Raise e => after_failure ld e None [LINE_LOADING]
      | Return vectorstore =>
          match as_retriever ld vectorstore 3 with
          | Raise e => after_failure ld e None [LINE_LOADING]
          | Return r =>
              match pipeline ld PRIMARY_MODEL with
              | Raise e => after_failure ld e (Some r) [LINE_LOADING; LINE_DATABASE]
              | Return m =>
                  (Return tt,
                   mkGlobals (Some r) (Some m) [LINE_LOADING; LINE_DATABASE; LINE_MODEL])
              end
          end
      end
  end.
Proof.
  unfold module_load, load_components, load_fallback, after_failure,
    ltry, lbind, ext, print, set_retriever, set_llm, unloaded.
  cbn [g_retriever g_llm stdout app].
  destruct (HuggingFaceEmbeddings ld EMBEDDING_MODEL) as [emb|e].
  2: { destruct (pipeline ld FALLBACK_MODEL); reflexivity. }
  destruct (Chroma ld PERSIST_DIRECTORY emb) as [vs|e].
  2: { destruct (pipeline ld FALLBACK_MODEL); reflexivity. }
  destruct (as_retriever ld vs 3) as [r|e].
  2: { destruct (pipeline ld FALLBACK_MODEL); reflexivity. }
  cbn [g_retriever g_llm stdout app].
  destruct (pipeline ld PRIMARY_MODEL) as [m|e]; [reflexivity|].
  cbn [g_retriever g_llm stdout app].
  destruct (pipeline ld FALLBACK_MODEL); reflexivity.
Qed.

(** The three ways the module ends up loaded. *)
Lemma module_load_cases g :
  module_load ld unloaded = (Return tt, g) ->
  (exists r m, database_loads ld /\ pipeline ld PRIMARY_MODEL = Return m /\
     g = mkGlobals (Some r) (Some m) [LINE_LOADING; LINE_DATABASE; LINE_MODEL]) \/
  (exists r m e, database_loads ld /\ pipeline ld PRIMARY_MODEL = Raise e /\
     pipeline ld FALLBACK_MODEL = Return m /\
     g = mkGlobals (Some r) (Some m)
           [LINE_LOADING; LINE_DATABASE; line_error e; LINE_FALLBACK]) \/
  (exists m e, ~ database_loads ld /\ pipeline ld FALLBACK_MODEL = Return m /\
     g = mkGlobals None (Some m) [LINE_LOADING; line_error e; LINE_FALLBACK]).
Proof.
  rewrite module_load_eq. unfold after_failure.
  destruct (HuggingFaceEmbeddings ld EMBEDDING_MODEL) as [emb|e] eqn:E1.
  2: { destruct (pipeline ld FALLBACK_MODEL) as [m|e'] eqn:F; [|discriminate].
       intros H. injection H as <-. right. right. exists m, e.
       split; [|split; reflexivity].
       intros (x & y & z & A & _). congruence. }
  destruct (Chroma ld PERSIST_DIRECTORY emb) as [vs|e] eqn:E2.
  2: { destruct (pipeline ld FALLBACK_MODEL) as [m|e'] eqn:F; [|discriminate].
       intros H. injection H as <-. right. right. exists m, e.
       split; [|split; reflexivity].
       intros (x & y & z & A & B & _). congruence. }
  destruct (as_retriever ld vs 3) as [r|e] eqn:E3.
  2: { destruct (pipeline ld FALLBACK_MODEL) as [m|e'] eqn:F; [|discriminate].
       intros H. injection H as <-. right. right. exists m, e.
       split; [|split; reflexivity].
       intros (x & y & z & A & B & C).
       rewrite E1 in A. injection A as <-. rewrite E2 in B. injection B as <-.
       congruence. }
  assert (D : database_loads ld) by (exists emb, vs, r; auto).
  destruct (pipeline ld PRIMARY_MODEL) as [m|e] eqn:E4.
  - intros H. injection H as <-. left. exists r, m. auto.
  - destruct (pipeline ld FALLBACK_MODEL) as [m|e'] eqn:F; [|discriminate].
    intros H. injection H as <-. right. left. exists r, m, e. auto.
Qed.

End Loading.

Section Loaded.

Import Startup.
Context {Embeddings VectorStore : Type}.

Lemma line_error_is_no_success_line e :
  line_error e <> LINE_DATABASE /\ line_error e <> LINE_MODEL /\
  line_error e <> LINE_FALLBACK /\ line_error e <> LINE_LOADING.
Proof.
  unfold line_error. repeat split; intros H; cbn [append] in H; discriminate H.
Qed.

Lemma analyze_news_in_bound g r m text :
  g_retriever g = Some r -> g_llm g = Some m ->
  analyze_news_in g text = analyze_news (mkServices r m) text.
Proof.
  intros Hr Hm. unfold analyze_news_in, analyze_news. rewrite Hr, Hm.
  reflexivity.
Qed.

End Loaded.


(** X9. Once the module is loaded, [llm] is bound: to the fake-news model
    only if the vector database loaded as well, and to the fallback model
    otherwise, also when the fake-news model itself would have loaded.
    [retriever] is bound exactly when the vector database loaded. *)
Theorem module_load_binds_globals {E V} (ld : Startup.Loaders E V) g :
  Startup.module_load ld Startup.unloaded = (Return tt, g) ->
  (exists m, Startup.g_llm g = Some m /\
     ((Startup.database_loads ld /\
       Startup.pipeline ld Startup.PRIMARY_MODEL = Return m) \/
      Startup.pipeline ld Startup.FALLBACK_MODEL = Return m)) /\
  ((exists r, Startup.g_retriever g = Some r) <-> Startup.database_loads ld) /\
  (~ Startup.database_loads ld ->
   exists m, Startup.g_llm g = Some m /\
             Startup.pipeline ld Startup.FALLBACK_MODEL = Return m).
Proof.
  intros H.
  destruct (module_load_cases ld g H)
    as [(r & m & D & P & ->)|[(r & m & e & D & P & F & ->)|(m & e & D & F & ->)]];
    cbn [Startup.g_llm Startup.g_retriever].
  - split; [exists m; auto|]. split; [split; [auto|eauto]|contradiction].
  - split; [exists m; auto|]. split; [split; [auto|eauto]|contradiction].
  - split; [exists m; auto|]. split; [|eauto].
    split; [intros (r & C); discriminate|contradiction].
Qed.

Lemma module_load_binds_globals_witness :
  exists m,
    Startup.g_llm (snd (Startup.module_load Startup.loaders_without_database
                                            Startup.unloaded)) = Some m /\
    Startup.pipeline Startup.loaders_without_database Startup.FALLBACK_MODEL = Return m.
Proof.
  refine (proj2 (proj2 (module_load_binds_globals
                          Startup.loaders_without_database _ eq_refl)) _).
  intros (x & y & z & A & B & C). discriminate B.
Defined.

(** X10. When the vector database fails to load and the fallback model
    loads, the module is loaded with [retriever] unbound: every input that
    passes validation then gets the error text of the [NameError], and
    neither service is called. *)
Theorem database_failure_breaks_every_analysis {E V} (ld : Startup.Loaders E V) g :
  Startup.module_load ld Startup.unloaded = (Return tt, g) ->
  ~ Startup.database_loads ld ->
  forall text,
    passes_validation text = true ->
    run (Startup.analyze_news_in g text)
    = (Return ("❌ Error analyzing content: name 'retriever' is not defined"
               ++ newline ++ newline ++ "Please try again with different text."),
       []).
Proof.
  intros H D text Hv.
  destruct (module_load_cases ld g H)
    as [(r & m & D' & _)|[(r & m & e & D' & _)|(m & e & _ & F & ->)]];
    try contradiction.
  unfold passes_validation in Hv. apply andb_prop in Hv as [Vt Vl].
  apply negb_true_iff in Vl.
  unfold run, Startup.analyze_news_in. rewrite Vt, Vl. reflexivity.
Qed.

Lemma database_failure_breaks_every_analysis_witness :
  run (Startup.analyze_news_in
         (snd (Startup.module_load Startup.loaders_without_database Startup.unloaded))
         Sample.text)
  = (Return "❌ Error analyzing content: name 'retriever' is not defined

Please try again with different text.", []).
Proof.
  refine (database_failure_breaks_every_analysis
            Startup.loaders_without_database _ eq_refl _ Sample.text eq_refl).
  intros (x & y & z & A & B & C). discriminate B.
Defined.

(** X11. When the vector database loads and the module is loaded, both
    globals are bound and [analyze_news] runs with them as its services: with
    the fake-news model if it loaded, with the fallback model if it did not. *)
Theorem loaded_module_runs_analyze_news {E V} (ld : Startup.Loaders E V) g :
  Startup.module_load ld Startup.unloaded = (Return tt, g) ->
  Startup.database_loads ld ->
  exists r m,
    Startup.g_retriever g = Some r /\ Startup.g_llm g = Some m /\
    (Startup.pipeline ld Startup.PRIMARY_MODEL = Return m \/
     ((exists e, Startup.pipeline ld Startup.PRIMARY_MODEL = Raise e) /\
      Startup.pipeline ld Startup.FALLBACK_MODEL = Return m)) /\
    (forall text, Startup.analyze_news_in g text = analyze_news (mkServices r m) text).
Proof.
  intros H D.
  destruct (module_load_cases ld g H)
    as [(r & m & _ & P & ->)|[(r & m & e & _ & P & F & ->)|(m & e & D' & _)]];
    try contradiction.
  - exists r, m. split; [reflexivity|]. split; [reflexivity|]. split; [auto|].
    intros text. apply analyze_news_in_bound; reflexivity.
  - exists r, m. split; [reflexivity|]. split; [reflexivity|]. split; [eauto|].
    intros text. apply analyze_news_in_bound; reflexivity.
Qed.

Lemma loaded_module_runs_analyze_news_witness :
  exists r m,
    Startup.g_retriever (snd (Startup.module_load Startup.loaders_without_primary
                                                  Startup.unloaded)) = Some r /\
    Startup.g_llm (snd (Startup.module_load Startup.loaders_without_primary
                                            Startup.unloaded)) = Some m /\
    (Startup.pipeline Startup.loaders_without_primary Startup.PRIMARY_MODEL = Return m \/
     ((exists e, Startup.pipeline Startup.loaders_without_primary Startup.PRIMARY_MODEL
                 = Raise e) /\
      Startup.pipeline Startup.loaders_without_primary Startup.FALLBACK_MODEL = Return m)) /\
    (forall text,
        Startup.analyze_news_in
          (snd (Startup.module_load Startup.loaders_without_primary Startup.unloaded)) text
        = analyze_news (mkServices r m) text).
Proof.
  refine (loaded_module_runs_analyze_news Startup.loaders_without_primary _ eq_refl _).
  exists tt, tt, (fun _ => Return Sample.docs). repeat split.
Defined.

(** X12. The lines printed while the module loads tell the state it reaches:
    the line of the vector database is printed exactly when [retriever] is
    bound, the line of the model exactly when the fallback line is not, and
    then [llm] is the fake-news model; the fallback line comes with the
    fallback model. *)
Theorem module_load_log {E V} (ld : Startup.Loaders E V) g :
  Startup.module_load ld Startup.unloaded = (Return tt, g) ->
  (In Startup.LINE_DATABASE (Startup.stdout g)
   <-> exists r, Startup.g_retriever g = Some r) /\
  (In Startup.LINE_MODEL (Startup.stdout g)
   <-> ~ In Startup.LINE_FALLBACK (Startup.stdout g)) /\
  (In Startup.LINE_MODEL (Startup.stdout g) ->
   exists m, Startup.g_llm g = Some m /\
             Startup.pipeline ld Startup.PRIMARY_MODEL = Return m) /\
  (In Startup.LINE_FALLBACK (Startup.stdout g) ->
   exists m, Startup.g_llm g = Some m /\
             Startup.pipeline ld Startup.FALLBACK_MODEL = Return m).
Proof.
  intros H.
  destruct (module_load_cases ld g H)
    as [(r & m & D & P & ->)|[(r & m & e & D & P & F & ->)|(m & e & D & F & ->)]];
    cbn [Startup.g_llm Startup.g_retriever Startup.stdout];
    try destruct (line_error_is_no_success_line e) as (N1 & N2 & N3 & N4).
  - split; [split; [eauto|intros _; right; left; reflexivity]|].
    split.
    { split.
      - intros _ [C|[C|[C|[]]]]; discriminate C.
      - intros _. right. right. left. reflexivity. }
    split; [eauto|].
    intros [C|[C|[C|[]]]]; discriminate C.
  - split; [split; [eauto|intros _; right; left; reflexivity]|].
    split.
    { split.
      + intros [C|[C|[C|[C|[]]]]]; first [discriminate C|congruence].
      + intros C. exfalso. apply C. right. right. right. left. reflexivity. }
    split; [|eauto].
    intros [C|[C|[C|[C|[]]]]]; first [discriminate C|congruence].
  - split.
    { split.
      + intros [C|[C|[C|[]]]]; first [discriminate C|congruence].
      + intros (r & C). discriminate C. }
    split.
    { split.
      + intros [C|[C|[C|[]]]]; first [discriminate C|congruence].
      + intros C. exfalso. apply C. right. right. left. reflexivity. }
    split; [|eauto].
    intros [C|[C|[C|[]]]]; first [discriminate C|congruence].
Qed.

Lemma module_load_log_witness :
  Startup.stdout (snd (Startup.module_load Startup.loaders_without_primary
                                           Startup.unloaded))
  = ["🚀 Loading Fake News Detector...";
     "✅ Vector database loaded successfully!";
     "❌ Error loading components: model not found";
     "⚠️  Using fallback model"] /\
  exists m,
    Startup.g_llm (snd (Startup.module_load Startup.loaders_without_primary
                                            Startup.unloaded)) = Some m /\
    Startup.pipeline Startup.loaders_without_primary Startup.FALLBACK_MODEL = Return m.
Proof.
  split; [reflexivity|].
  refine (proj2 (proj2 (proj2 (module_load_log Startup.loaders_without_primary _ eq_refl)))
            _).
  right. right. right. left. reflexivity.
Defined.
